(** * Renderer: draw-state caching and uniform-block plumbing

    A shallow embedding of [src/graphics/Renderer.ts] together with the
    shader table of [ShaderSources.ts].

    Conventions of the embedding:
    - JS objects (shaders, materials, vertex and index buffers) are
      compared by reference in the source ([!=] on objects), so an object
      is represented by its reference; the fields the renderer reads
      through a reference travel with the argument.
    - JS [number]s that the renderer counts with or passes through are
      integers here ([Z]); no rounding of doubles is modelled.
    - every call that leaves the renderer (WebGL context, shader,
      material, vertex and index buffers, constructors) is appended to
      the chronological log [gl]; calls on the two uniform buffers act
      on their staged blocks, and [update] is logged with the block it
      uploads.  All these calls are taken to return normally.
    - a thrown exception keeps the state reached so far: a method is a
      function [World -> outcome A * World]. *)

From Stdlib Require Import ZArith QArith Qcanon List.
From stdpp Require Import base option gmap strings list.

Local Open Scope Z_scope.
Local Open Scope string_scope.

(** ** Object references *)

Definition ref := nat.

(** [Material]: the renderer reads [mat.shader]. *)
Record Material := { material_ref : ref; shader : ref }.

(** [IndexBuffer]: the renderer reads [index_buffer.indices.BYTES_PER_ELEMENT]. *)
Record IndexBuffer := { index_buffer_ref : ref; BYTES_PER_ELEMENT : Z }.

Record VertexBuffer := { vertex_buffer_ref : ref }.

(** ** The gl-matrix interface

    [gl-matrix] is an external dependency.  The renderer uses
    [mat4.create], [mat3.create], [mat4.mul(out, a, b)] (the product
    [a * b]), [mat4.invert(out, a)] and [mat3.normalFromMat4(out, a)];
    the last two return [null] without touching [out] when the
    determinant of [a] is zero. *)
Class GlMatrix := {
  mat4 : Type;
  mat3 : Type;
  mat4_create : mat4;
  mat3_create : mat3;
  mat4_mul : mat4 -> mat4 -> mat4;
  mat4_invert : mat4 -> option mat4;
  mat3_normalFromMat4 : mat4 -> option mat3;
}.

(** ** Errors and outcomes *)

Inductive exn :=
| Error (msg : string)         (* [throw new Error(msg)] *)
| TypeError (msg : string)     (* raised by the JS runtime *)
| ThrownString (s : string).   (* [throw "..."] *)

Inductive outcome (A : Type) :=
| Ret (a : A)
| Throw (e : exn).
Arguments Ret {A} a.
Arguments Throw {A} e.

Inductive IndexType := UNSIGNED_SHORT | UNSIGNED_INT.

(** Modelled from the spec: RendererStats ([graphics/RendererStats.ts] is
    not among the sources).  The counters are the ones [Renderer.ts]
    updates; [reset] zeroes every counter. *)
Record RendererStats := {
  shader_bind_count : Z;
  material_bind_count : Z;
  vertex_buffer_bind_count : Z;
  index_buffer_bind_count : Z;
  index_draw_count : Z;
  vertex_draw_count : Z;
  draw_calls : Z;
}.

Definition RendererStats_new : RendererStats :=
  Build_RendererStats 0 0 0 0 0 0 0.

Definition RendererStats_reset (_ : RendererStats) : RendererStats :=
  RendererStats_new.

Record ViewportDimensions := { vp_x : Z; vp_y : Z; vp_width : Z; vp_height : Z }.

Definition ViewportDimensions_new : ViewportDimensions :=
  Build_ViewportDimensions 0 0 0 0.

(** Shader classes of [ShaderSources.ts]: the base class or a named subclass. *)
Inductive ShaderClass :=
| BaseShader
| BasicShader
| PBRShader
| EquiToCubemapShader
| CubemapToIrradianceShader
| CubemapSpecularPrefilterShader.

(** A constructed shader object: its reference, the class whose
    constructor built it and the two sources the constructor received. *)
Record Shader := {
  shader_ref : ref;
  shader_class : ShaderClass;
  vertexSourceCode : string;
  fragmentSourceCode : string;
}.

(** ** The shader table ([ShaderSources.ts])

    [vert] and [frag] are the texts imported from the shader files; a
    text is represented by the path it is imported from. *)
Record ShaderSource := {
  name : string;
  vert : string;
  frag : string;
  subclass : option ShaderClass;
}.

Module ShaderSource.
Definition standardVert := "../../shaders/standard.vert".
Definition basicFrag := "../../shaders/basic.frag".
Definition pbrFrag := "../../shaders/pbr.frag".
Definition normalOnlyFrag := "../../shaders/normals.frag".
Definition equiToCubemapFrag := "../../shaders/equirectangularToCubemap.frag".
Definition cubemapToIrradianceFrag := "../../shaders/irradiance.frag".
Definition cubemapSpecularPrefilterFrag := "../../shaders/specularPrefilter.frag".
Definition gridVert := "../../shaders/grid.vert".
Definition gridFrag := "../../shaders/grid.frag".
Definition brdfVert := "../../shaders/brdf.vert".
Definition brdfFrag := "../../shaders/brdf.frag".

Definition Basic : ShaderSource :=
  {| name := "BasicShader"; vert := standardVert; frag := basicFrag;
     subclass := Some BasicShader |}.
Definition PBR : ShaderSource :=
  {| name := "PBRShader"; vert := standardVert; frag := pbrFrag;
     subclass := Some PBRShader |}.
Definition NormalOnly : ShaderSource :=
  {| name := "NormalOnlyShader"; vert := standardVert; frag := normalOnlyFrag;
     subclass := None |}.
Definition EquiToCubemap : ShaderSource :=
  {| name := "EquiToCubemapShader"; vert := standardVert; frag := equiToCubemapFrag;
     subclass := Some EquiToCubemapShader |}.
Definition CubemapToIrradiance : ShaderSource :=
  {| name := "CubemapToIrradianceShader"; vert := standardVert;
     frag := cubemapToIrradianceFrag; subclass := Some CubemapToIrradianceShader |}.
Definition CubemapSpecularPrefilter : ShaderSource :=
  {| name := "CubemapSpecularPrefilter"; vert := standardVert;
     frag := cubemapSpecularPrefilterFrag;
     subclass := Some CubemapSpecularPrefilterShader |}.
Definition Grid : ShaderSource :=
  {| name := "GridShader"; vert := gridVert; frag := gridFrag; subclass := None |}.
Definition BRDF : ShaderSource :=
  {| name := "BRDFShader"; vert := brdfVert; frag := brdfFrag; subclass := None |}.
End ShaderSource.

(** [Object.values(ShaderSource)]: the exported constants in declaration order. *)
Definition ShaderSources : list ShaderSource :=
  [ ShaderSource.Basic; ShaderSource.PBR; ShaderSource.NormalOnly;
    ShaderSource.EquiToCubemap; ShaderSource.CubemapToIrradiance;
    ShaderSource.CubemapSpecularPrefilter; ShaderSource.Grid; ShaderSource.BRDF ].

(** ** JS [Map] with string keys: [set] keeps the position of a key that
    is already present and appends a new one; [get] finds the entry. *)
Fixpoint Map_set {V} (k : string) (v : V) (m : list (string * V)) : list (string * V) :=
  match m with
  | [] => [(k, v)]
  | (k', v') :: rest =>
      if decide (k' = k) then (k, v) :: rest else (k', v') :: Map_set k v rest
  end.

Fixpoint Map_get {V} (k : string) (m : list (string * V)) : option V :=
  match m with
  | [] => None
  | (k', v') :: rest => if decide (k' = k) then Some v' else Map_get k rest
  end.

Definition Map_values {V} (m : list (string * V)) : list V := map snd m.

Section Renderer.
Context {GM : GlMatrix}.

(** A value handed to [UniformBuffer.set]. *)
Inductive uvalue :=
| UMat4 (m : mat4)
| UMat3 (m : mat3)
| UNull.

(** Modelled from the spec: UniformBuffer ([graphics/UniformBuffer.ts] is
    not among the sources).  [set(name, value)] copies the value into the
    CPU-side staging block under [name] (a [null] value is staged as
    [UNull]); [bindShader(shader, binding)] attaches the block to
    [shader] at a binding point; [update(gl)] uploads the staged block
    to the GPU. *)
Record UniformBuffer := {
  ub_block_name : string;
  ub_layout_shader : ref;
  ub_items : gmap string uvalue;
  ub_bindings : list (ref * Z);
}.

Definition UniformBuffer_new (sh : Shader) (block_name : string) : UniformBuffer :=
  {| ub_block_name := block_name; ub_layout_shader := shader_ref sh;
     ub_items := ∅; ub_bindings := [] |}.

Definition UniformBuffer_set (name : string) (v : uvalue) (ub : UniformBuffer) : UniformBuffer :=
  {| ub_block_name := ub_block_name ub; ub_layout_shader := ub_layout_shader ub;
     ub_items := <[name := v]> (ub_items ub); ub_bindings := ub_bindings ub |}.

Definition UniformBuffer_bindShader (sh : Shader) (binding : Z) (ub : UniformBuffer) : UniformBuffer :=
  {| ub_block_name := ub_block_name ub; ub_layout_shader := ub_layout_shader ub;
     ub_items := ub_items ub; ub_bindings := ub_bindings ub ++ [(shader_ref sh, binding)] |}.

(** ** Calls leaving the renderer *)
Inductive Call :=
| ShaderUse (sh : ref)                                   (* [shader.use()] *)
| MaterialActivate (m : ref)                             (* [mat.activate(gl)] *)
| VertexBufferBind (vb : ref)                            (* [vb.bindBuffers(gl)] *)
| IndexBufferBind (ib : ref)                             (* [ib.bind(gl)] *)
| DrawElements (mode count : Z) (type : IndexType) (offset : Z)
| DrawArrays (mode first count : Z)
| Viewport (x y width height : Z)
| UniformBufferUpdate (block : string) (data : gmap string uvalue)
| NewTexture2D (texture_id : ref)
| NewTextureCubeMap (texture_id : ref)
| NewShader (sh : Shader)
| NewUniformBuffer (block : string) (layout : ref)
| UniformBufferBindShader (block : string) (sh : ref) (binding : Z).

(** ** State *)

(** Instance fields of [Renderer]. *)
Record Renderer := {
  current_vertex_buffer : option ref;
  current_index_buffer : option ref;
  current_material : option ref;
  current_shader : option ref;
  uboPerFrameBlock : UniformBuffer;
  uboPerModelBlock : UniformBuffer;
  stats : RendererStats;
  viewport : ViewportDimensions;
}.

(** Static fields of [Renderer].  [_Shaders] is a JS [Map]: insertion
    order is kept, a key occurs once.  Before the first constructor call
    the statics are unset; the table is then the empty list. *)
Record Statics := {
  _EMPTY_TEXTURE : option ref;
  _EMPTY_CUBE_TEXTURE : option ref;
  _BRDF_LUT_TEXTURE : option ref;
  _Shaders : list (string * Shader);
}.

(** Module-level scratch matrices of [Renderer.ts].  [normalview_matrix]
    is declared with [let] and typed [mat3 | null]. *)
Record Scratch := {
  temp : mat4;
  modelview_matrix : mat4;
  normalview_matrix : option mat3;
  mvp_matrix : mat4;
}.

Record World := {
  this : Renderer;
  statics : Statics;
  scratch : Scratch;
  gl : list Call;
  next_ref : ref;
}.

(** Field updates. *)
Definition set_current_vertex_buffer (v : option ref) (r : Renderer) : Renderer :=
  let '(Build_Renderer _ ib m sh f p st vp) := r in Build_Renderer v ib m sh f p st vp.
Definition set_current_index_buffer (v : option ref) (r : Renderer) : Renderer :=
  let '(Build_Renderer vb _ m sh f p st vp) := r in Build_Renderer vb v m sh f p st vp.
Definition set_current_material (v : option ref) (r : Renderer) : Renderer :=
  let '(Build_Renderer vb ib _ sh f p st vp) := r in Build_Renderer vb ib v sh f p st vp.
Definition set_current_shader (v : option ref) (r : Renderer) : Renderer :=
  let '(Build_Renderer vb ib m _ f p st vp) := r in Build_Renderer vb ib m v f p st vp.
Definition upd_uboPerFrameBlock (g : UniformBuffer -> UniformBuffer) (r : Renderer) : Renderer :=
  let '(Build_Renderer vb ib m sh f p st vp) := r in Build_Renderer vb ib m sh (g f) p st vp.
Definition upd_uboPerModelBlock (g : UniformBuffer -> UniformBuffer) (r : Renderer) : Renderer :=
  let '(Build_Renderer vb ib m sh f p st vp) := r in Build_Renderer vb ib m sh f (g p) st vp.
Definition upd_stats (g : RendererStats -> RendererStats) (r : Renderer) : Renderer :=
  let '(Build_Renderer vb ib m sh f p st vp) := r in Build_Renderer vb ib m sh f p (g st) vp.
Definition set_viewport (v : ViewportDimensions) (r : Renderer) : Renderer :=
  let '(Build_Renderer vb ib m sh f p st _) := r in Build_Renderer vb ib m sh f p st v.

Definition incr_shader_bind_count (st : RendererStats) : RendererStats :=
  let '(Build_RendererStats a b c d e f g) := st in Build_RendererStats (a + 1) b c d e f g.
Definition incr_material_bind_count (st : RendererStats) : RendererStats :=
  let '(Build_RendererStats a b c d e f g) := st in Build_RendererStats a (b + 1) c d e f g.
Definition incr_vertex_buffer_bind_count (st : RendererStats) : RendererStats :=
  let '(Build_RendererStats a b c d e f g) := st in Build_RendererStats a b (c + 1) d e f g.
Definition incr_index_buffer_bind_count (st : RendererStats) : RendererStats :=
  let '(Build_RendererStats a b c d e f g) := st in Build_RendererStats a b c (d + 1) e f g.
Definition add_index_draw_count (n : Z) (st : RendererStats) : RendererStats :=
  let '(Build_RendererStats a b c d e f g) := st in Build_RendererStats a b c d (e + n) f g.
Definition add_vertex_draw_count (n : Z) (st : RendererStats) : RendererStats :=
  let '(Build_RendererStats a b c d e f g) := st in Build_RendererStats a b c d e (f + n) g.
Definition incr_draw_calls (st : RendererStats) : RendererStats :=
  let '(Build_RendererStats a b c d e f g) := st in Build_RendererStats a b c d e f (g + 1).

Definition set_EMPTY_TEXTURE (v : option ref) (s : Statics) : Statics :=
  let '(Build_Statics _ c b sh) := s in Build_Statics v c b sh.
Definition set_EMPTY_CUBE_TEXTURE (v : option ref) (s : Statics) : Statics :=
  let '(Build_Statics e _ b sh) := s in Build_Statics e v b sh.
Definition upd_Shaders (g : list (string * Shader) -> list (string * Shader)) (s : Statics) : Statics :=
  let '(Build_Statics e c b sh) := s in Build_Statics e c b (g sh).

Definition set_temp (v : mat4) (s : Scratch) : Scratch :=
  let '(Build_Scratch _ mv n mvp) := s in Build_Scratch v mv n mvp.
Definition set_modelview_matrix (v : mat4) (s : Scratch) : Scratch :=
  let '(Build_Scratch t _ n mvp) := s in Build_Scratch t v n mvp.
Definition set_normalview_matrix (v : option mat3) (s : Scratch) : Scratch :=
  let '(Build_Scratch t mv _ mvp) := s in Build_Scratch t mv v mvp.
Definition set_mvp_matrix (v : mat4) (s : Scratch) : Scratch :=
  let '(Build_Scratch t mv n _) := s in Build_Scratch t mv n v.

(** ** The method monad: state, with exceptions that keep the state *)

Definition M (A : Type) : Type := World -> outcome A * World.

#[global] Instance M_ret : MRet M := fun A a w => (Ret a, w).
#[global] Instance M_bind : MBind M := fun A B f m w =>
  match m w with
  | (Ret a, w') => f a w'
  | (Throw e, w') => (Throw e, w')
  end.

Definition throw {A} (e : exn) : M A := fun w => (Throw e, w).

Definition get_this : M Renderer := fun w => (Ret (this w), w).
Definition get_statics : M Statics := fun w => (Ret (statics w), w).
Definition get_scratch : M Scratch := fun w => (Ret (scratch w), w).

Definition modify_this (g : Renderer -> Renderer) : M unit := fun w =>
  (Ret tt, {| this := g (this w); statics := statics w; scratch := scratch w;
              gl := gl w; next_ref := next_ref w |}).
Definition modify_statics (g : Statics -> Statics) : M unit := fun w =>
  (Ret tt, {| this := this w; statics := g (statics w); scratch := scratch w;
              gl := gl w; next_ref := next_ref w |}).
Definition modify_scratch (g : Scratch -> Scratch) : M unit := fun w =>
  (Ret tt, {| this := this w; statics := statics w; scratch := g (scratch w);
              gl := gl w; next_ref := next_ref w |}).

(** A call leaving the renderer is appended to the log. *)
Definition call (c : Call) : M unit := fun w =>
  (Ret tt, {| this := this w; statics := statics w; scratch := scratch w;
              gl := gl w ++ [c]; next_ref := next_ref w |}).

(** [new]: a fresh object reference. *)
Definition new_ref : M ref := fun w =>
  (Ret (next_ref w), {| this := this w; statics := statics w; scratch := scratch w;
                        gl := gl w; next_ref := S (next_ref w) |}).

(** ** Renderer methods *)

Definition setViewport (x y width height : Z) : M unit :=
  modify_this (set_viewport (Build_ViewportDimensions x y width height));;
  call (Viewport x y width height).

Definition resetViewport : M unit :=
  r ← get_this;
  call (Viewport (vp_x (viewport r)) (vp_y (viewport r))
                 (vp_width (viewport r)) (vp_height (viewport r))).

Definition resetSaveBindings : M unit :=
  modify_this (set_current_vertex_buffer None);;
  modify_this (set_current_index_buffer None);;
  modify_this (set_current_material None);;
  modify_this (set_current_shader None).

Definition resetStats : M unit :=
  modify_this (upd_stats RendererStats_reset);;
  modify_this (set_current_shader None);;
  modify_this (set_current_material None).

Definition draw (draw_mode count offset : Z) (index_buffer : option IndexBuffer)
    (vertex_buffer : VertexBuffer) (mat : option Material) : M unit :=
  r ← get_this;
  match mat with
  | Some m =>
      if bool_decide (Some (shader m) ≠ current_shader r) then
        modify_this (set_current_shader (Some (shader m)));;
        call (ShaderUse (shader m));;
        modify_this (upd_stats incr_shader_bind_count)
      else mret tt
  | None => mret tt
  end;;
  r ← get_this;
  match mat with
  | Some m =>
      if bool_decide (Some (material_ref m) ≠ current_material r) then
        modify_this (set_current_material (Some (material_ref m)));;
        call (MaterialActivate (material_ref m));;
        modify_this (upd_stats incr_material_bind_count)
      else mret tt
  | None => mret tt
  end;;
  r ← get_this;
  (if bool_decide (Some (vertex_buffer_ref vertex_buffer) ≠ current_vertex_buffer r) then
     modify_this (set_current_vertex_buffer (Some (vertex_buffer_ref vertex_buffer)));;
     call (VertexBufferBind (vertex_buffer_ref vertex_buffer));;
     modify_this (upd_stats incr_vertex_buffer_bind_count)
   else mret tt);;
  r ← get_this;
  match index_buffer with
  | Some ib =>
      if bool_decide (Some (index_buffer_ref ib) ≠ current_index_buffer r) then
        modify_this (set_current_index_buffer (Some (index_buffer_ref ib)));;
        call (IndexBufferBind (index_buffer_ref ib));;
        modify_this (upd_stats incr_index_buffer_bind_count)
      else mret tt
  | None => mret tt
  end;;
  match index_buffer with
  | Some ib =>
      (if bool_decide (BYTES_PER_ELEMENT ib = 2) then
         call (DrawElements draw_mode count UNSIGNED_SHORT offset)
       else if bool_decide (BYTES_PER_ELEMENT ib = 4) then
         call (DrawElements draw_mode count UNSIGNED_INT offset)
       else throw (Error "Unknown index buffer type"));;
      modify_this (upd_stats (add_index_draw_count count))
  | None =>
      call (DrawArrays draw_mode offset count);;
      modify_this (upd_stats (add_vertex_draw_count count))
  end;;
  modify_this (upd_stats incr_draw_calls).


(** *** gl-matrix calls on the scratch matrices *)

(** [mat4.invert(temp, a)]: [temp] is written only when [a] has an inverse. *)
Definition invert_into_temp (a : mat4) : M (option mat4) :=
  match mat4_invert a with
  | Some r => modify_scratch (set_temp r);; mret (Some r)
  | None => mret None
  end.

(** [mat4.mul(temp, a, b)]. *)
Definition mul_into_temp (a b : mat4) : M mat4 :=
  modify_scratch (set_temp (mat4_mul a b));; mret (mat4_mul a b).

(** [mat4.mul(modelview_matrix, a, b)]. *)
Definition mul_into_modelview (a b : mat4) : M mat4 :=
  modify_scratch (set_modelview_matrix (mat4_mul a b));; mret (mat4_mul a b).

(** [mat4.mul(mvp_matrix, a, b)]. *)
Definition mul_into_mvp (a b : mat4) : M mat4 :=
  modify_scratch (set_mvp_matrix (mat4_mul a b));; mret (mat4_mul a b).

(** [mat3.normalFromMat4(out, a)] with [out] possibly [null]: the
    determinant is tested first; writing the result through a [null]
    [out] raises a [TypeError]. *)
Definition normalFromMat4_out (out : option mat3) (a : mat4) : M (option mat3) :=
  match mat3_normalFromMat4 a with
  | None => mret None
  | Some n =>
      match out with
      | Some _ => mret (Some n)
      | None => throw (TypeError "Cannot set properties of null")
      end
  end.

Definition nullable_mat4 (o : option mat4) : uvalue :=
  match o with Some m => UMat4 m | None => UNull end.

(** [uboPerFrameBlock.update(gl)] and [uboPerModelBlock.update(gl)]. *)
Definition uboPerFrameBlock_update : M unit :=
  r ← get_this;
  call (UniformBufferUpdate (ub_block_name (uboPerFrameBlock r)) (ub_items (uboPerFrameBlock r))).

Definition uboPerModelBlock_update : M unit :=
  r ← get_this;
  call (UniformBufferUpdate (ub_block_name (uboPerModelBlock r)) (ub_items (uboPerModelBlock r))).

Definition setPerFrameUniforms (view proj : mat4) : M unit :=
  modify_this (upd_uboPerFrameBlock (UniformBuffer_set "view" (UMat4 view)));;
  inv ← invert_into_temp view;
  modify_this (upd_uboPerFrameBlock (UniformBuffer_set "view_inverse" (nullable_mat4 inv)));;
  modify_this (upd_uboPerFrameBlock (UniformBuffer_set "projection" (UMat4 proj)));;
  vp ← mul_into_temp proj view;
  modify_this (upd_uboPerFrameBlock (UniformBuffer_set "view_projection" (UMat4 vp)));;
  uboPerFrameBlock_update;;
  resetStats.

Definition setPerModelUniforms (model_matrix view_matrix proj_matrix : mat4) : M unit :=
  modify_this (upd_uboPerModelBlock (UniformBuffer_set "model" (UMat4 model_matrix)));;
  mv ← mul_into_modelview view_matrix model_matrix;
  modify_this (upd_uboPerModelBlock (UniformBuffer_set "model_view" (UMat4 mv)));;
  sc ← get_scratch;
  n ← normalFromMat4_out (normalview_matrix sc) (modelview_matrix sc);
  modify_scratch (set_normalview_matrix n);;
  match n with
  | Some nv => modify_this (upd_uboPerModelBlock (UniformBuffer_set "normal_view" (UMat3 nv)))
  | None => throw (Error "Determinant could not be calculated for normalview_matrix")
  end;;
  sc ← get_scratch;
  mvp ← mul_into_mvp proj_matrix (modelview_matrix sc);
  modify_this (upd_uboPerModelBlock (UniformBuffer_set "mvp" (UMat4 mvp)));;
  uboPerModelBlock_update.

(** *** Static accessors *)

Definition GetShader (name : string) : M (option Shader) :=
  st ← get_statics; mret (Map_get name (_Shaders st)).

Definition EMPTY_TEXTURE : M (option ref) :=
  st ← get_statics; mret (_EMPTY_TEXTURE st).

Definition EMPTY_CUBE_TEXTURE : M (option ref) :=
  st ← get_statics; mret (_EMPTY_CUBE_TEXTURE st).

(** *** Constructor *)

(** [new Texture2D(gl).texture_id] and [new TextureCubeMap(gl).texture_id]. *)
Definition Texture2D_new : M ref :=
  id ← new_ref; call (NewTexture2D id);; mret id.

Definition TextureCubeMap_new : M ref :=
  id ← new_ref; call (NewTextureCubeMap id);; mret id.

(** [new C(gl, vert, frag)] for [C] the base class or a subclass. *)
Definition Shader_new (c : ShaderClass) (vertexSourceCode fragmentSourceCode : string) : M Shader :=
  id ← new_ref;
  let sh := Build_Shader id c vertexSourceCode fragmentSourceCode in
  call (NewShader sh);; mret sh.

(** The loop [for (const shader_source of ShaderSources)]. *)
Fixpoint create_shaders (sources : list ShaderSource) : M unit :=
  match sources with
  | [] => mret tt
  | shader_source :: rest =>
      match subclass shader_source with
      | Some c =>
          sh ← Shader_new c (vert shader_source) (frag shader_source);
          modify_statics (upd_Shaders (Map_set (name shader_source) sh))
      | None =>
          sh ← Shader_new BaseShader (vert shader_source) (frag shader_source);
          modify_statics (upd_Shaders (Map_set (name shader_source) sh))
      end;;
      create_shaders rest
  end.

Definition PerFrameBinding : Z := 0.
Definition PerModelBinding : Z := 1.

(** The loop [for (const shader of Renderer._Shaders.values())]. *)
Fixpoint bind_shaders (shaders : list Shader) : M unit :=
  match shaders with
  | [] => mret tt
  | sh :: rest =>
      modify_this (upd_uboPerFrameBlock (UniformBuffer_bindShader sh PerFrameBinding));;
      call (UniformBufferBindShader "ubo_per_frame" (shader_ref sh) PerFrameBinding);;
      modify_this (upd_uboPerModelBlock (UniformBuffer_bindShader sh PerModelBinding));;
      call (UniformBufferBindShader "ubo_per_model" (shader_ref sh) PerModelBinding);;
      bind_shaders rest
  end.

(** [new Renderer(gl)]: the field initialisers, then the constructor body.
    The non-null assertion on [GetShader(ShaderSource.PBR.name)] has no
    run-time effect; building a uniform buffer from [undefined] is
    taken to raise a [TypeError]. *)
Definition constructor : M unit :=
  modify_this (set_current_vertex_buffer None);;
  modify_this (set_current_index_buffer None);;
  modify_this (set_current_material None);;
  modify_this (set_current_shader None);;
  modify_this (set_viewport ViewportDimensions_new);;
  modify_this (upd_stats (fun _ => RendererStats_new));;
  t ← Texture2D_new;
  modify_statics (set_EMPTY_TEXTURE (Some t));;
  c ← TextureCubeMap_new;
  modify_statics (set_EMPTY_CUBE_TEXTURE (Some c));;
  modify_statics (upd_Shaders (fun _ => []));;
  create_shaders ShaderSources;;
  shader ← GetShader (name ShaderSource.PBR);
  match shader with
  | None => throw (TypeError "Cannot read properties of undefined")
  | Some shader =>
      modify_this (upd_uboPerFrameBlock (fun _ => UniformBuffer_new shader "ubo_per_frame"));;
      call (NewUniformBuffer "ubo_per_frame" (shader_ref shader));;
      modify_this (upd_uboPerModelBlock (fun _ => UniformBuffer_new shader "ubo_per_model"));;
      call (NewUniformBuffer "ubo_per_model" (shader_ref shader));;
      st ← get_statics;
      bind_shaders (Map_values (_Shaders st))
  end.

(** ** Observations used by the statements *)

(** The calls logged between two worlds of one run. *)
Definition calls_since (w w' : World) : list Call :=
  drop (length (gl w)) (gl w').

Definition is_draw_command (c : Call) : bool :=
  match c with
  | DrawElements _ _ _ _ | DrawArrays _ _ _ => true
  | _ => false
  end.

Definition is_upload (c : Call) : bool :=
  match c with
  | UniformBufferUpdate _ _ => true
  | _ => false
  end.

(** A call of a method on the renderer, and a caller that runs a
    sequence of them, catching whatever one of them throws. *)
Inductive Method :=
| Call_setPerFrameUniforms (view proj : mat4)
| Call_setPerModelUniforms (model_matrix view_matrix proj_matrix : mat4)
| Call_setViewport (x y width height : Z)
| Call_resetViewport
| Call_resetSaveBindings
| Call_draw (draw_mode count offset : Z) (index_buffer : option IndexBuffer)
            (vertex_buffer : VertexBuffer) (mat : option Material)
| Call_resetStats.

Definition run (c : Method) : M unit :=
  match c with
  | Call_setPerFrameUniforms v p => setPerFrameUniforms v p
  | Call_setPerModelUniforms m v p => setPerModelUniforms m v p
  | Call_setViewport x y wd h => setViewport x y wd h
  | Call_resetViewport => resetViewport
  | Call_resetSaveBindings => resetSaveBindings
  | Call_draw dm c o ib vb mat => draw dm c o ib vb mat
  | Call_resetStats => resetStats
  end.

Definition is_setViewport (c : Method) : bool :=
  match c with Call_setViewport _ _ _ _ => true | _ => false end.

Fixpoint run_all (cs : list Method) (w : World) : World :=
  match cs with
  | [] => w
  | c :: rest => run_all rest (snd (run c w))
  end.

(** Methods that leave the [viewport] field alone. *)
Definition keeps_viewport {A} (m : M A) : Prop :=
  forall w, viewport (this (snd (m w))) = viewport (this w).

(** Two-sided inverses with respect to the identity [mat4.create()]. *)
Definition is_inverse (a b : mat4) : Prop :=
  mat4_mul a b = mat4_create /\ mat4_mul b a = mat4_create.


(** A world before any renderer exists. *)
Definition blank_world : World :=
  {| this := {| current_vertex_buffer := None; current_index_buffer := None;
                current_material := None; current_shader := None;
                uboPerFrameBlock := Build_UniformBuffer "" 0%nat ∅ [];
                uboPerModelBlock := Build_UniformBuffer "" 0%nat ∅ [];
                stats := RendererStats_new; viewport := ViewportDimensions_new |};
     statics := Build_Statics None None None [];
     scratch := Build_Scratch mat4_create mat4_create (Some mat3_create) mat4_create;
     gl := []; next_ref := 0%nat |}.

(** The world right after [new Renderer(gl)]. *)
Definition initial_world : World := snd (constructor blank_world).

End Renderer.

(** What gl-matrix computes, in exact arithmetic: [mat4.invert] finds
    the two-sided inverse exactly when there is one, and
    [mat3.normalFromMat4] returns [null] for the same matrices as
    [mat4.invert]. *)
Class GlMatrixLaws (GM : GlMatrix) : Prop := {
  invert_is_inverse : forall a b : mat4, mat4_invert a = Some b <-> is_inverse a b;
  normalFromMat4_null : forall a : mat4, mat3_normalFromMat4 a = None <-> mat4_invert a = None;
}.

(** ** The earlier revision of [Renderer.draw]

    It takes the shader itself instead of a material, keeps no
    statistics and throws a bare string. *)
Module Legacy.
Section Legacy.
Context {GM : GlMatrix}.

Definition draw (draw_mode count offset : Z) (index_buffer : option IndexBuffer)
    (vertex_buffer : VertexBuffer) (shader : ref) : M unit :=
  r ← get_this;
  (if bool_decide (Some shader ≠ current_shader r) then
     modify_this (set_current_shader (Some shader));;
     call (ShaderUse shader)
   else mret tt);;
  r ← get_this;
  (if bool_decide (Some (vertex_buffer_ref vertex_buffer) ≠ current_vertex_buffer r) then
     modify_this (set_current_vertex_buffer (Some (vertex_buffer_ref vertex_buffer)));;
     call (VertexBufferBind (vertex_buffer_ref vertex_buffer))
   else mret tt);;
  r ← get_this;
  match index_buffer with
  | Some ib =>
      if bool_decide (Some (index_buffer_ref ib) ≠ current_index_buffer r) then
        modify_this (set_current_index_buffer (Some (index_buffer_ref ib)));;
        call (IndexBufferBind (index_buffer_ref ib))
      else mret tt
  | None => mret tt
  end;;
  match index_buffer with
  | Some ib =>
      if bool_decide (BYTES_PER_ELEMENT ib = 2) then
        call (DrawElements draw_mode count UNSIGNED_SHORT offset)
      else if bool_decide (BYTES_PER_ELEMENT ib = 4) then
        call (DrawElements draw_mode count UNSIGNED_INT offset)
      else throw (ThrownString "Unknown index buffer type")
  | None => call (DrawArrays draw_mode offset count)
  end.

End Legacy.
End Legacy.

(** ** gl-matrix in exact arithmetic

    An instance of the interface over the rationals: the formulas of
    [mat4.multiply], [mat4.invert] and [mat3.normalFromMat4] with the
    float operations replaced by exact ones.  Matrices are column-major
    as in gl-matrix: [aCR] is element [4*C + R] of the array. *)
Module Exact.
Local Open Scope Qc_scope.

Record mat4q := Mat4 {
  a00 : Qc; a01 : Qc; a02 : Qc; a03 : Qc;
  a10 : Qc; a11 : Qc; a12 : Qc; a13 : Qc;
  a20 : Qc; a21 : Qc; a22 : Qc; a23 : Qc;
  a30 : Qc; a31 : Qc; a32 : Qc; a33 : Qc;
}.

Record mat3q := Mat3 {
  n00 : Qc; n01 : Qc; n02 : Qc;
  n10 : Qc; n11 : Qc; n12 : Qc;
  n20 : Qc; n21 : Qc; n22 : Qc;
}.

Definition create4 : mat4q :=
  Mat4 1 0 0 0  0 1 0 0  0 0 1 0  0 0 0 1.

Definition create3 : mat3q :=
  Mat3 1 0 0  0 1 0  0 0 1.

Definition multiply (a b : mat4q) : mat4q :=
  let '(Mat4 a00 a01 a02 a03 a10 a11 a12 a13 a20 a21 a22 a23 a30 a31 a32 a33) := a in
  let '(Mat4 b00 b01 b02 b03 b10 b11 b12 b13 b20 b21 b22 b23 b30 b31 b32 b33) := b in
  Mat4 (b00 * a00 + b01 * a10 + b02 * a20 + b03 * a30)
       (b00 * a01 + b01 * a11 + b02 * a21 + b03 * a31)
       (b00 * a02 + b01 * a12 + b02 * a22 + b03 * a32)
       (b00 * a03 + b01 * a13 + b02 * a23 + b03 * a33)
       (b10 * a00 + b11 * a10 + b12 * a20 + b13 * a30)
       (b10 * a01 + b11 * a11 + b12 * a21 + b13 * a31)
       (b10 * a02 + b11 * a12 + b12 * a22 + b13 * a32)
       (b10 * a03 + b11 * a13 + b12 * a23 + b13 * a33)
       (b20 * a00 + b21 * a10 + b22 * a20 + b23 * a30)
       (b20 * a01 + b21 * a11 + b22 * a21 + b23 * a31)
       (b20 * a02 + b21 * a12 + b22 * a22 + b23 * a32)
       (b20 * a03 + b21 * a13 + b22 * a23 + b23 * a33)
       (b30 * a00 + b31 * a10 + b32 * a20 + b33 * a30)
       (b30 * a01 + b31 * a11 + b32 * a21 + b33 * a31)
       (b30 * a02 + b31 * a12 + b32 * a22 + b33 * a32)
       (b30 * a03 + b31 * a13 + b32 * a23 + b33 * a33).

(** The twelve 2x2 minors [b00 .. b11] shared by the determinant, the
    inverse and the normal matrix. *)
Record minors := Minors {
  b00 : Qc; b01 : Qc; b02 : Qc; b03 : Qc; b04 : Qc; b05 : Qc;
  b06 : Qc; b07 : Qc; b08 : Qc; b09 : Qc; b10 : Qc; b11 : Qc;
}.

Definition minors_of (a : mat4q) : minors :=
  let '(Mat4 a00 a01 a02 a03 a10 a11 a12 a13 a20 a21 a22 a23 a30 a31 a32 a33) := a in
  Minors (a00 * a11 - a01 * a10) (a00 * a12 - a02 * a10) (a00 * a13 - a03 * a10)
         (a01 * a12 - a02 * a11) (a01 * a13 - a03 * a11) (a02 * a13 - a03 * a12)
         (a20 * a31 - a21 * a30) (a20 * a32 - a22 * a30) (a20 * a33 - a23 * a30)
         (a21 * a32 - a22 * a31) (a21 * a33 - a23 * a31) (a22 * a33 - a23 * a32).

Definition determinant (a : mat4q) : Qc :=
  let '(Minors b00 b01 b02 b03 b04 b05 b06 b07 b08 b09 b10 b11) := minors_of a in
  b00 * b11 - b01 * b10 + b02 * b09 + b03 * b08 - b04 * b07 + b05 * b06.

Definition invert (a : mat4q) : option mat4q :=
  let '(Mat4 a00 a01 a02 a03 a10 a11 a12 a13 a20 a21 a22 a23 a30 a31 a32 a33) := a in
  let '(Minors b00 b01 b02 b03 b04 b05 b06 b07 b08 b09 b10 b11) := minors_of a in
  let det := determinant a in
  if decide (det = 0) then None
  else
    let det := / det in
    Some (Mat4 ((a11 * b11 - a12 * b10 + a13 * b09) * det)
               ((a02 * b10 - a01 * b11 - a03 * b09) * det)
               ((a31 * b05 - a32 * b04 + a33 * b03) * det)
               ((a22 * b04 - a21 * b05 - a23 * b03) * det)
               ((a12 * b08 - a10 * b11 - a13 * b07) * det)
               ((a00 * b11 - a02 * b08 + a03 * b07) * det)
               ((a32 * b02 - a30 * b05 - a33 * b01) * det)
               ((a20 * b05 - a22 * b02 + a23 * b01) * det)
               ((a10 * b10 - a11 * b08 + a13 * b06) * det)
               ((a01 * b08 - a00 * b10 - a03 * b06) * det)
               ((a30 * b04 - a31 * b02 + a33 * b00) * det)
               ((a21 * b02 - a20 * b04 - a23 * b00) * det)
               ((a11 * b07 - a10 * b09 - a12 * b06) * det)
               ((a00 * b09 - a01 * b07 + a02 * b06) * det)
               ((a31 * b01 - a30 * b03 - a32 * b00) * det)
               ((a20 * b03 - a21 * b01 + a22 * b00) * det)).

Definition normalFromMat4 (a : mat4q) : option mat3q :=
  let '(Mat4 a00 a01 a02 a03 a10 a11 a12 a13 a20 a21 a22 a23 a30 a31 a32 a33) := a in
  let '(Minors b00 b01 b02 b03 b04 b05 b06 b07 b08 b09 b10 b11) := minors_of a in
  let det := determinant a in
  if decide (det = 0) then None
  else
    let det := / det in
    Some (Mat3 ((a11 * b11 - a12 * b10 + a13 * b09) * det)
               ((a12 * b08 - a10 * b11 - a13 * b07) * det)
               ((a10 * b10 - a11 * b08 + a13 * b06) * det)
               ((a02 * b10 - a01 * b11 - a03 * b09) * det)
               ((a00 * b11 - a02 * b08 + a03 * b07) * det)
               ((a01 * b08 - a00 * b10 - a03 * b06) * det)
               ((a31 * b05 - a32 * b04 + a33 * b03) * det)
               ((a32 * b02 - a30 * b05 - a33 * b01) * det)
               ((a30 * b04 - a31 * b02 + a33 * b00) * det)).

(** The spec's words for the normal matrix: the inverse-transpose of
    the upper-left 3x3 block, [null] when that block is singular. *)
Definition upper3_determinant (a : mat4q) : Qc :=
  let '(Mat4 a00 a01 a02 _ a10 a11 a12 _ a20 a21 a22 _ _ _ _ _) := a in
  a00 * (a11 * a22 - a21 * a12) - a10 * (a01 * a22 - a21 * a02)
  + a20 * (a01 * a12 - a11 * a02).

Definition upper3_inverse_transpose (a : mat4q) : option mat3q :=
  let '(Mat4 a00 a01 a02 _ a10 a11 a12 _ a20 a21 a22 _ _ _ _ _) := a in
  let det := upper3_determinant a in
  if decide (det = 0) then None
  else
    let det := / det in
    Some (Mat3 ((a11 * a22 - a21 * a12) * det)
               ((a20 * a12 - a10 * a22) * det)
               ((a10 * a21 - a20 * a11) * det)
               ((a21 * a02 - a01 * a22) * det)
               ((a00 * a22 - a20 * a02) * det)
               ((a20 * a01 - a00 * a21) * det)
               ((a01 * a12 - a11 * a02) * det)
               ((a10 * a02 - a00 * a12) * det)
               ((a00 * a11 - a10 * a01) * det)).

(** The zero matrix, scalings, translations and the exchange of the
    third and fourth axes, used as inputs. *)
Definition zero4 : mat4q :=
  Mat4 0 0 0 0  0 0 0 0  0 0 0 0  0 0 0 0.

Definition scaling (k : Qc) : mat4q :=
  Mat4 k 0 0 0  0 k 0 0  0 0 k 0  0 0 0 1.

Definition translation (x y z : Qc) : mat4q :=
  Mat4 1 0 0 0  0 1 0 0  0 0 1 0  x y z 1.

Definition exchange_zw : mat4q :=
  Mat4 1 0 0 0  0 1 0 0  0 0 0 1  0 0 1 0.

Definition gl_matrix : GlMatrix := {|
  mat4 := mat4q;
  mat3 := mat3q;
  mat4_create := create4;
  mat3_create := create3;
  mat4_mul := multiply;
  mat4_invert := invert;
  mat3_normalFromMat4 := normalFromMat4;
|}.

End Exact.

(** ** Concrete inputs *)
Module Scene.
Definition ib16 : IndexBuffer := {| index_buffer_ref := 20%nat; BYTES_PER_ELEMENT := 2 |}.
Definition ib32 : IndexBuffer := {| index_buffer_ref := 21%nat; BYTES_PER_ELEMENT := 4 |}.
Definition ib8 : IndexBuffer := {| index_buffer_ref := 22%nat; BYTES_PER_ELEMENT := 1 |}.
Definition vb : VertexBuffer := {| vertex_buffer_ref := 30%nat |}.
Definition pbr : Material := {| material_ref := 40%nat; shader := 3%nat |}.
Definition TRIANGLES : Z := 4.

(** A translation by (1, 2, 3) and the translation back. *)
Definition move : Exact.mat4q :=
  Exact.translation (Q2Qc (inject_Z 1)) (Q2Qc (inject_Z 2)) (Q2Qc (inject_Z 3)).
Definition move_back : Exact.mat4q :=
  Exact.translation (Q2Qc (inject_Z (-1))) (Q2Qc (inject_Z (-2))) (Q2Qc (inject_Z (-3))).

(** The renderer right after construction, over the exact matrices. *)
Definition fresh : World (GM := Exact.gl_matrix) := initial_world.

(** The world after one indexed draw with a material. *)
Definition drawn : World (GM := Exact.gl_matrix) :=
  snd (draw TRIANGLES 36 0 (Some ib16) vb (Some pbr) fresh).
End Scene.

(** ** One [draw] call in closed form *)
Section DrawClosedForm.
Context {GM : GlMatrix}.

(** [draw] binds an object again when it is not the tracked one. *)
Definition rebinds (a : ref) (cur : option ref) : bool :=
  bool_decide (Some a ≠ cur).

Definition bump (b : bool) (n : Z) : Z := if b then n + 1 else n.

(** The binding calls of one [draw], in the order they are issued. *)
Definition bind_calls (r : Renderer) (index_buffer : option IndexBuffer)
    (vertex_buffer : VertexBuffer) (mat : option Material) : list Call :=
  match mat with
  | Some m => if rebinds (shader m) (current_shader r) then [ShaderUse (shader m)] else []
  | None => []
  end ++
  match mat with
  | Some m =>
      if rebinds (material_ref m) (current_material r)
      then [MaterialActivate (material_ref m)] else []
  | None => []
  end ++
  (if rebinds (vertex_buffer_ref vertex_buffer) (current_vertex_buffer r)
   then [VertexBufferBind (vertex_buffer_ref vertex_buffer)] else []) ++
  match index_buffer with
  | Some ib =>
      if rebinds (index_buffer_ref ib) (current_index_buffer r)
      then [IndexBufferBind (index_buffer_ref ib)] else []
  | None => []
  end.

(** The renderer after the four binding steps. *)
Definition after_binds (r : Renderer) (index_buffer : option IndexBuffer)
    (vertex_buffer : VertexBuffer) (mat : option Material) : Renderer :=
  {| current_vertex_buffer := Some (vertex_buffer_ref vertex_buffer);
     current_index_buffer :=
       match index_buffer with
       | Some ib => Some (index_buffer_ref ib)
       | None => current_index_buffer r
       end;
     current_material :=
       match mat with Some m => Some (material_ref m) | None => current_material r end;
     current_shader :=
       match mat with Some m => Some (shader m) | None => current_shader r end;
     uboPerFrameBlock := uboPerFrameBlock r;
     uboPerModelBlock := uboPerModelBlock r;
     stats :=
       {| shader_bind_count :=
            match mat with
            | Some m => bump (rebinds (shader m) (current_shader r))
                             (shader_bind_count (stats r))
            | None => shader_bind_count (stats r)
            end;
          material_bind_count :=
            match mat with
            | Some m => bump (rebinds (material_ref m) (current_material r))
                             (material_bind_count (stats r))
            | None => material_bind_count (stats r)
            end;
          vertex_buffer_bind_count :=
            bump (rebinds (vertex_buffer_ref vertex_buffer) (current_vertex_buffer r))
                 (vertex_buffer_bind_count (stats r));
          index_buffer_bind_count :=
            match index_buffer with
            | Some ib => bump (rebinds (index_buffer_ref ib) (current_index_buffer r))
                              (index_buffer_bind_count (stats r))
            | None => index_buffer_bind_count (stats r)
            end;
          index_draw_count := index_draw_count (stats r);
          vertex_draw_count := vertex_draw_count (stats r);
          draw_calls := draw_calls (stats r) |};
     viewport := viewport r |}.

(** The draw command of one [draw]; none when the index element size is
    neither 2 nor 4. *)
Definition dispatch_call (draw_mode count offset : Z)
    (index_buffer : option IndexBuffer) : option Call :=
  match index_buffer with
  | Some ib =>
      if bool_decide (BYTES_PER_ELEMENT ib = 2)
      then Some (DrawElements draw_mode count UNSIGNED_SHORT offset)
      else if bool_decide (BYTES_PER_ELEMENT ib = 4)
      then Some (DrawElements draw_mode count UNSIGNED_INT offset)
      else None
  | None => Some (DrawArrays draw_mode offset count)
  end.

(** The statistics after a dispatched command. *)
Definition count_dispatch (count : Z) (index_buffer : option IndexBuffer)
    (st : RendererStats) : RendererStats :=
  incr_draw_calls
    (match index_buffer with
     | Some _ => add_index_draw_count count st
     | None => add_vertex_draw_count count st
     end).

(** The result of [draw] in one expression. *)
Definition draw_result (draw_mode count offset : Z) (index_buffer : option IndexBuffer)
    (vertex_buffer : VertexBuffer) (mat : option Material) (w : World)
    : outcome unit * World :=
  let r := after_binds (this w) index_buffer vertex_buffer mat in
  let binds := bind_calls (this w) index_buffer vertex_buffer mat in
  match dispatch_call draw_mode count offset index_buffer with
  | Some c =>
      (Ret tt,
       {| this := upd_stats (count_dispatch count index_buffer) r;
          statics := statics w; scratch := scratch w;
          gl := gl w ++ binds ++ [c]; next_ref := next_ref w |})
  | None =>
      (Throw (Error "Unknown index buffer type"),
       {| this := r; statics := statics w; scratch := scratch w;
          gl := gl w ++ binds; next_ref := next_ref w |})
  end.

End DrawClosedForm.

(** ** Observations on longer runs *)
Section RunObservations.
Context {GM : GlMatrix}.

Definition is_bind_call (c : Call) : bool :=
  match c with
  | ShaderUse _ | MaterialActivate _ | VertexBufferBind _ | IndexBufferBind _ => true
  | _ => false
  end.

(** The object a binding call binds, by kind of call. *)
Definition shader_used (c : Call) : option ref :=
  match c with ShaderUse r => Some r | _ => None end.
Definition material_activated (c : Call) : option ref :=
  match c with MaterialActivate r => Some r | _ => None end.
Definition vertex_buffer_bound (c : Call) : option ref :=
  match c with VertexBufferBind r => Some r | _ => None end.
Definition index_buffer_bound (c : Call) : option ref :=
  match c with IndexBufferBind r => Some r | _ => None end.

(** The number of calls of one kind, and the number of indices and of
    vertices the draw commands of a log ask for. *)
Definition calls_of (sel : Call -> option ref) (l : list Call) : Z :=
  Z.of_nat (length (omap sel l)).

Definition draw_commands (l : list Call) : Z :=
  Z.of_nat (length (filter is_draw_command l)).

Fixpoint indices_drawn (l : list Call) : Z :=
  match l with
  | [] => 0
  | DrawElements _ count _ _ :: rest => count + indices_drawn rest
  | _ :: rest => indices_drawn rest
  end.

Fixpoint vertices_drawn (l : list Call) : Z :=
  match l with
  | [] => 0
  | DrawArrays _ _ count :: rest => count + vertices_drawn rest
  | _ :: rest => vertices_drawn rest
  end.

(** Statistics [st'] are [st] plus what the calls [new] amount to. *)
Definition accounts (st st' : RendererStats) (new : list Call) : Prop :=
  shader_bind_count st' = shader_bind_count st + calls_of shader_used new /\
  material_bind_count st' = material_bind_count st + calls_of material_activated new /\
  vertex_buffer_bind_count st'
    = vertex_buffer_bind_count st + calls_of vertex_buffer_bound new /\
  index_buffer_bind_count st'
    = index_buffer_bind_count st + calls_of index_buffer_bound new /\
  draw_calls st' = draw_calls st + draw_commands new /\
  index_draw_count st' = index_draw_count st + indices_drawn new /\
  vertex_draw_count st' = vertex_draw_count st + vertices_drawn new.

(** The methods that reset the statistics. *)
Definition is_reset (c : Method) : bool :=
  match c with
  | Call_resetStats | Call_setPerFrameUniforms _ _ => true
  | _ => false
  end.

(** The binding cache agrees with the log: a tracked object is the one
    of the latest binding call of its kind. *)
Definition coherent (w : World) : Prop :=
  (forall v, current_shader (this w) = Some v ->
     last (omap shader_used (gl w)) = Some v) /\
  (forall v, current_material (this w) = Some v ->
     last (omap material_activated (gl w)) = Some v) /\
  (forall v, current_vertex_buffer (this w) = Some v ->
     last (omap vertex_buffer_bound (gl w)) = Some v) /\
  (forall v, current_index_buffer (this w) = Some v ->
     last (omap index_buffer_bound (gl w)) = Some v).

(** The arguments of a [draw] are the tracked objects. *)
Definition bound_to (r : Renderer) (index_buffer : option IndexBuffer)
    (vertex_buffer : VertexBuffer) (mat : option Material) : Prop :=
  current_vertex_buffer r = Some (vertex_buffer_ref vertex_buffer) /\
  match index_buffer with
  | Some ib => current_index_buffer r = Some (index_buffer_ref ib)
  | None => True
  end /\
  match mat with
  | Some m => current_shader r = Some (shader m) /\ current_material r = Some (material_ref m)
  | None => True
  end.
(** [k] further calls of [draw] with the same arguments. *)
Fixpoint draw_again (k : nat) (draw_mode count offset : Z)
    (index_buffer : option IndexBuffer) (vertex_buffer : VertexBuffer)
    (mat : option Material) (w : World) : World :=
  match k with
  | O => w
  | S k' =>
      draw_again k' draw_mode count offset index_buffer vertex_buffer mat
        (snd (draw draw_mode count offset index_buffer vertex_buffer mat w))
  end.



(** A [setPerModelUniforms] call whose model-view matrix has a normal
    matrix; any other method. *)
Definition has_normal_matrix (c : Method) : bool :=
  match c with
  | Call_setPerModelUniforms m v _ =>
      match mat3_normalFromMat4 (mat4_mul v m) with Some _ => true | None => false end
  | _ => true
  end.

End RunObservations.

Section PlainCalls.
Context {GM : GlMatrix}.

(** The calls of the methods other than [draw]. *)
Definition is_plain (c : Call) : bool :=
  match c with
  | Viewport _ _ _ _ | UniformBufferUpdate _ _ => true
  | _ => false
  end.

End PlainCalls.

Section Frames.
Context {GM : GlMatrix}.

(** A method leaves an observation of the world as it was. *)
Definition keeps {A B} (f : World -> B) (m : M A) : Prop :=
  forall w, f (snd (m w)) = f w.

(** The keys [setPerFrameUniforms] and [setPerModelUniforms] write. *)
Definition per_frame_keys : list string :=
  ["view"; "view_inverse"; "projection"; "view_projection"].

Definition per_model_keys : list string :=
  ["model"; "model_view"; "normal_view"; "mvp"].

End Frames.

(** ** The shader class ([Shader.ts], earlier revision)

    A shader object wraps a linked program: a map from the names of the
    program's active uniforms to [Uniform] objects, and a map from
    attribute names to locations.  [Uniform.ts] is not among the
    sources: constructing a [Uniform] and its [set(value)] appear as
    data and as a logged call.  The module keeps three scratch matrices
    of its own. *)
Module ShaderProgram.

(** The values a caller hands to [setUniform] ([any | any[]]). *)
Inductive JSValue :=
| JUndefined
| JNull
| JBool (b : bool)
| JNumber (n : Z)
| JString (s : string)
| JArray (l : list Z).

(** JS truthiness, as [if (value)] tests it. *)
Definition truthy (v : JSValue) : bool :=
  match v with
  | JUndefined | JNull => false
  | JBool b => b
  | JNumber n => negb (Z.eqb n 0)
  | JString s => negb (String.eqb s "")
  | JArray _ => true
  end.

Inductive ShaderType := VERTEX_SHADER | FRAGMENT_SHADER.

(** [WebGLActiveInfo]. *)
Record ActiveInfo := { info_name : string; info_size : Z; info_type : Z }.

(** A [Uniform] object, as [new Uniform(gl, ID, info)] builds it. *)
Record Uniform := { uniform_program : ref; uniform_info : ActiveInfo }.

(** What the WebGL driver answers to the queries of the class. *)
Class Driver := {
  COMPILE_STATUS : ref -> bool;
  getShaderInfoLog : ref -> option string;
  LINK_STATUS : ref -> bool;
  ACTIVE_UNIFORMS : ref -> list ActiveInfo;
  getAttribLocation : ref -> string -> Z;
}.

Section ShaderProgram.
Context {GM : GlMatrix} {GLD : Driver}.

(** A value handed to [Uniform.set]: a caller's value or one of the
    scratch matrices. *)
Inductive Value :=
| Plain (v : JSValue)
| Matrix4 (m : mat4)
| Matrix3 (m : mat3).

Inductive GLCall :=
| CreateShader (type : ShaderType) (handle : ref)
| ShaderSource (handle : ref) (source : string)
| CompileShader (handle : ref)
| CreateProgram (handle : ref)
| AttachShader (program shader : ref)
| LinkProgram (program : ref)
| Alert (message : option string)
| UseProgram (program : ref)
| DeleteShader (handle : ref)
| UniformSet (u : Uniform) (value : Value)
| ConsoleDir (m : mat4).

(** The fields of a shader object. *)
Record Shader := {
  uniforms : list (string * Uniform);
  attributes : list (string * Z);
  ID : ref;
}.

(** The object, the scratch matrices of the module, the log of calls
    and the next handle the driver gives out. *)
Record Env := {
  this : Shader;
  modelview_matrix : mat4;
  normalview_matrix : mat3;
  mvp_matrix : mat4;
  calls : list GLCall;
  next_handle : ref;
}.

Definition log (c : GLCall) (e : Env) : Env :=
  {| this := this e; modelview_matrix := modelview_matrix e;
     normalview_matrix := normalview_matrix e; mvp_matrix := mvp_matrix e;
     calls := calls e ++ [c]; next_handle := next_handle e |}.

Definition set_this (s : Shader) (e : Env) : Env :=
  {| this := s; modelview_matrix := modelview_matrix e;
     normalview_matrix := normalview_matrix e; mvp_matrix := mvp_matrix e;
     calls := calls e; next_handle := next_handle e |}.

Definition fresh_handle (e : Env) : ref * Env :=
  (next_handle e,
   {| this := this e; modelview_matrix := modelview_matrix e;
      normalview_matrix := normalview_matrix e; mvp_matrix := mvp_matrix e;
      calls := calls e; next_handle := S (next_handle e) |}).

(** [Shader.getCompiledShader(gl, sourceCode, type)]. *)
Definition getCompiledShader (sourceCode : string) (type : ShaderType) (e : Env)
    : ref * Env :=
  let '(shader, e) := fresh_handle e in
  let e := log (CreateShader type shader) e in
  let e := log (ShaderSource shader sourceCode) e in
  let e := log (CompileShader shader) e in
  let e :=
    if negb (COMPILE_STATUS shader) then log (Alert (getShaderInfoLog shader)) e else e in
  (shader, e).

(** The loop of [initUniforms] over the active uniforms of the program. *)
Fixpoint initUniforms_loop (ID : ref) (infos : list ActiveInfo)
    (uniforms : list (string * Uniform)) : list (string * Uniform) :=
  match infos with
  | [] => uniforms
  | info :: rest =>
      initUniforms_loop ID rest
        (Map_set (info_name info) (Build_Uniform ID info) uniforms)
  end.

Definition initUniforms (e : Env) : Env :=
  set_this {| uniforms := initUniforms_loop (ID (this e)) (ACTIVE_UNIFORMS (ID (this e)))
                            (uniforms (this e));
              attributes := attributes (this e); ID := ID (this e) |} e.

(** [new Shader(gl, vertexSourceCode, fragmentSourceCode)]. *)
Definition constructor (vertexSourceCode fragmentSourceCode : string) (e : Env) : Env :=
  let '(vertexShader, e) := getCompiledShader vertexSourceCode VERTEX_SHADER e in
  let '(fragmentShader, e) := getCompiledShader fragmentSourceCode FRAGMENT_SHADER e in
  let '(program, e) := fresh_handle e in
  let e := log (CreateProgram program) e in
  let e := log (AttachShader program vertexShader) e in
  let e := log (AttachShader program fragmentShader) e in
  let e := log (LinkProgram program) e in
  let e :=
    if negb (LINK_STATUS program)
    then log (Alert (Some "Could not initialize shaders")) e else e in
  let e := set_this {| uniforms := []; attributes := []; ID := program |} e in
  initUniforms e.

Definition send (name : string) (value : Value) (e : Env) : Env :=
  match Map_get name (uniforms (this e)) with
  | Some uniform => log (UniformSet uniform value) e
  | None => e
  end.

Definition setUniform (name : string) (value : JSValue) (e : Env) : Env :=
  send name (Plain value) e.

Definition setModelViewBlock (model_matrix view_matrix proj_matrix : mat4) (e : Env) : Env :=
  let modelview := mat4_mul view_matrix model_matrix in
  let normalview :=
    match mat3_normalFromMat4 modelview with
    | Some n => n
    | None => normalview_matrix e
    end in
  let mvp := mat4_mul proj_matrix modelview in
  let e :=
    {| this := this e; modelview_matrix := modelview; normalview_matrix := normalview;
       mvp_matrix := mvp; calls := calls e; next_handle := next_handle e |} in
  let e := send "u_view_matrix" (Matrix4 view_matrix) e in
  let e := send "u_modelview_matrix" (Matrix4 (modelview_matrix e)) e in
  let e := send "u_normalview_matrix" (Matrix3 (normalview_matrix e)) e in
  let e := send "u_mvp_matrix" (Matrix4 (mvp_matrix e)) e in
  log (ConsoleDir (mvp_matrix e)) e.

Definition setViewProjBlock (view_matrix proj_matrix : mat4) (e : Env) : Env :=
  let e :=
    {| this := this e; modelview_matrix := modelview_matrix e;
       normalview_matrix := normalview_matrix e;
       mvp_matrix := mat4_mul proj_matrix view_matrix;
       calls := calls e; next_handle := next_handle e |} in
  let e := send "u_view_matrix" (Matrix4 view_matrix) e in
  let e := send "u_proj_matrix" (Matrix4 proj_matrix) e in
  send "u_vp_matrix" (Matrix4 (mvp_matrix e)) e.

Definition delete (e : Env) : Env := log (DeleteShader (ID (this e))) e.

Definition use (e : Env) : Env := log (UseProgram (ID (this e))) e.

Fixpoint setAttributes (attr : list string) (e : Env) : Env :=
  match attr with
  | [] => e
  | a :: rest =>
      setAttributes rest
        (set_this {| uniforms := uniforms (this e);
                     attributes := Map_set a (getAttribLocation (ID (this e)) a)
                                           (attributes (this e));
                     ID := ID (this e) |} e)
  end.

(** [setUniforms(uniforms: Map<string, any>)], over the entries in
    insertion order. *)
Fixpoint setUniforms (entries : list (string * JSValue)) (e : Env) : Env :=
  match entries with
  | [] => e
  | (name, value) :: rest =>
      setUniforms rest (if truthy value then setUniform name value e else e)
  end.

(** A run of [setModelViewBlock] calls. *)
Fixpoint setModelViewBlock_all (ms : list (mat4 * mat4 * mat4)) (e : Env) : Env :=
  match ms with
  | [] => e
  | (model_matrix, view_matrix, proj_matrix) :: rest =>
      setModelViewBlock_all rest (setModelViewBlock model_matrix view_matrix proj_matrix e)
  end.

Definition is_alert (c : GLCall) : bool :=
  match c with Alert _ => true | _ => false end.

(** The calls logged between two states of one run. *)
Definition calls_since (e e' : Env) : list GLCall :=
  drop (length (calls e)) (calls e').

(** The module before any call: the scratch matrices as [create()]
    leaves them, no object yet. *)
Definition start : Env :=
  {| this := {| uniforms := []; attributes := []; ID := 0%nat |};
     modelview_matrix := mat4_create; normalview_matrix := mat3_create;
     mvp_matrix := mat4_create; calls := []; next_handle := 0%nat |}.

End ShaderProgram.
End ShaderProgram.

(** ** Concrete inputs for the shader class *)
Module Bench.

Definition uniform_info (n : string) : ShaderProgram.ActiveInfo :=
  {| ShaderProgram.info_name := n; ShaderProgram.info_size := 1;
     ShaderProgram.info_type := 35676 |}.

(** A driver for which everything compiles and links, with three active
    uniforms and one attribute. *)
Definition driver : ShaderProgram.Driver :=
  {| ShaderProgram.COMPILE_STATUS := fun _ => true;
     ShaderProgram.getShaderInfoLog := fun _ => None;
     ShaderProgram.LINK_STATUS := fun _ => true;
     ShaderProgram.ACTIVE_UNIFORMS := fun _ =>
       [uniform_info "u_view_matrix"; uniform_info "u_normalview_matrix";
        uniform_info "u_mvp_matrix"];
     ShaderProgram.getAttribLocation := fun _ a =>
       if String.eqb a "a_vertex" then 0 else -1 |}.

(** A shader object of that driver, over the exact matrices. *)
Definition shader_env : ShaderProgram.Env (GM := Exact.gl_matrix) :=
  ShaderProgram.constructor (GLD := driver) "vertex source" "fragment source"
    ShaderProgram.start.

(** A table in which two entries share a name. *)
Definition grid_again : ShaderSource :=
  {| name := "GridShader"; vert := ShaderSource.standardVert;
     frag := ShaderSource.gridFrag; subclass := Some BasicShader |}.

End Bench.

(** * Properties *)

(** Unfolds one method down to the state it returns. *)
Ltac step_method :=
  unfold draw, setViewport, resetViewport, resetSaveBindings, resetStats,
    mbind, M_bind, mret, M_ret, modify_this, call, get_this, throw, calls_since;
  cbn [this statics scratch gl next_ref fst snd].

(** Brings a log [(l ++ a) ++ b] to [l ++ (a ++ b)] and cuts [l] off. *)
Ltac cut_log :=
  cbn [this statics scratch gl next_ref fst snd];
  rewrite <- ?app_assoc; rewrite ?drop_app_length; rewrite ?drop_all;
  cbn [app filter is_draw_command is_upload].

(** Case analysis of one [draw] call on a symbolic world. *)
Ltac draw_cases :=
  step_method;
  cbn [shader material_ref BYTES_PER_ELEMENT index_buffer_ref vertex_buffer_ref
       current_shader current_material current_vertex_buffer current_index_buffer
       stats set_current_shader set_current_material set_current_vertex_buffer
       set_current_index_buffer upd_stats] in *;
  repeat (case_bool_decide;
          cbn [this statics scratch gl next_ref fst snd
               current_shader current_material current_vertex_buffer
               current_index_buffer stats set_current_shader set_current_material
               set_current_vertex_buffer set_current_index_buffer upd_stats] in * );
  cut_log;
  cbn [incr_shader_bind_count incr_material_bind_count incr_vertex_buffer_bind_count
       incr_index_buffer_bind_count add_index_draw_count add_vertex_draw_count
       incr_draw_calls shader_bind_count material_bind_count vertex_buffer_bind_count
       index_buffer_bind_count index_draw_count vertex_draw_count draw_calls
       this stats current_shader current_material current_vertex_buffer
       current_index_buffer] in *.

Ltac not_in_log :=
  repeat (apply not_elem_of_cons; split; [discriminate|]); apply not_elem_of_nil.

(** Unfolds the uniform-block methods. *)
Ltac step_uniforms :=
  lazy beta iota zeta delta
    [setPerFrameUniforms setPerModelUniforms invert_into_temp mul_into_temp
     mul_into_modelview mul_into_mvp normalFromMat4_out uboPerFrameBlock_update
     uboPerModelBlock_update resetStats get_scratch modify_scratch get_this
     modify_this call throw mbind M_bind mret M_ret calls_since
     this statics scratch gl next_ref fst snd].

Section DrawProperties.
Context {GM : GlMatrix}.

(** C1. A [draw] call issues no redundant state change.  If a material
    is passed and its shader is the tracked current shader, no
    [shader.use()] is issued and [shader_bind_count] stays; if the
    material is the tracked current material, no [activate] is issued
    and [material_bind_count] stays; if the vertex buffer is the tracked
    one, no [bindBuffers] is issued and [vertex_buffer_bind_count] stays;
    if an index buffer is passed and is the tracked one, no [bind] is
    issued and [index_buffer_bind_count] stays. *)
Theorem draw_no_redundant_state_change
    (draw_mode count offset : Z) (index_buffer : option IndexBuffer)
    (vertex_buffer : VertexBuffer) (mat : option Material) (w : World) :
  let w' := snd (draw draw_mode count offset index_buffer vertex_buffer mat w) in
  (forall m, mat = Some m -> Some (shader m) = current_shader (this w) ->
     (forall sh, ShaderUse sh ∉ calls_since w w') /\
     shader_bind_count (stats (this w')) = shader_bind_count (stats (this w))) /\
  (forall m, mat = Some m -> Some (material_ref m) = current_material (this w) ->
     (forall r, MaterialActivate r ∉ calls_since w w') /\
     material_bind_count (stats (this w')) = material_bind_count (stats (this w))) /\
  (Some (vertex_buffer_ref vertex_buffer) = current_vertex_buffer (this w) ->
     (forall r, VertexBufferBind r ∉ calls_since w w') /\
     vertex_buffer_bind_count (stats (this w')) = vertex_buffer_bind_count (stats (this w))) /\
  (forall ib, index_buffer = Some ib ->
     Some (index_buffer_ref ib) = current_index_buffer (this w) ->
     (forall r, IndexBufferBind r ∉ calls_since w w') /\
     index_buffer_bind_count (stats (this w')) = index_buffer_bind_count (stats (this w))).
Proof.
  destruct w as [[? ? ? ? ? ? [? ? ? ? ? ? ?] ?] ? ? ? ?].
  destruct index_buffer as [[? ?]|], vertex_buffer as [?], mat as [[? ?]|].
  all: intros w'; subst w'; split; [|split; [|split]].
  all: try (intros ? [= <-]); try (intros ? [=]); intros Hs; revert Hs.
  all: draw_cases; intros Hs; try congruence.
  all: split; [intros; not_in_log | reflexivity].
Qed.

(** C2. After a [draw] call that returns normally the tracked bindings
    are the arguments: the vertex buffer always; the index buffer, and
    the material with its shader, when passed; the tracked fields of an
    omitted argument keep their values. *)
Theorem draw_tracks_arguments
    (draw_mode count offset : Z) (index_buffer : option IndexBuffer)
    (vertex_buffer : VertexBuffer) (mat : option Material) (w : World) :
  let r := draw draw_mode count offset index_buffer vertex_buffer mat w in
  fst r = Ret tt ->
  current_vertex_buffer (this (snd r)) = Some (vertex_buffer_ref vertex_buffer) /\
  match index_buffer with
  | Some ib => current_index_buffer (this (snd r)) = Some (index_buffer_ref ib)
  | None => current_index_buffer (this (snd r)) = current_index_buffer (this w)
  end /\
  match mat with
  | Some m =>
      current_shader (this (snd r)) = Some (shader m) /\
      current_material (this (snd r)) = Some (material_ref m)
  | None =>
      current_shader (this (snd r)) = current_shader (this w) /\
      current_material (this (snd r)) = current_material (this w)
  end.
Proof.
  destruct w as [[? ? ? ? ? ? [? ? ? ? ? ? ?] ?] ? ? ? ?].
  destruct index_buffer as [[? ?]|], vertex_buffer as [?], mat as [[? ?]|].
  all: intros r; subst r; draw_cases; intros Hret; try discriminate Hret.
  all: repeat split; try reflexivity.
  all: congruence.
Qed.

(** C3. A successful [draw] call dispatches exactly one draw command:
    [drawElements] with [UNSIGNED_SHORT] for 2-byte indices, with
    [UNSIGNED_INT] for 4-byte indices, [drawArrays(draw_mode, offset,
    count)] without an index buffer; an index buffer of any other
    element size makes the call throw [Unknown index buffer type].  On
    success [draw_calls] grows by one and [count] is added to
    [index_draw_count] (indexed) or [vertex_draw_count] (arrays). *)
Theorem draw_dispatch
    (draw_mode count offset : Z) (index_buffer : option IndexBuffer)
    (vertex_buffer : VertexBuffer) (mat : option Material) (w : World) :
  let r := draw draw_mode count offset index_buffer vertex_buffer mat w in
  let st := stats (this w) in
  let st' := stats (this (snd r)) in
  (forall ib, index_buffer = Some ib -> BYTES_PER_ELEMENT ib = 2 ->
     fst r = Ret tt /\
     filter is_draw_command (calls_since w (snd r))
       = [DrawElements draw_mode count UNSIGNED_SHORT offset] /\
     draw_calls st' = draw_calls st + 1 /\
     index_draw_count st' = index_draw_count st + count /\
     vertex_draw_count st' = vertex_draw_count st) /\
  (forall ib, index_buffer = Some ib -> BYTES_PER_ELEMENT ib = 4 ->
     fst r = Ret tt /\
     filter is_draw_command (calls_since w (snd r))
       = [DrawElements draw_mode count UNSIGNED_INT offset] /\
     draw_calls st' = draw_calls st + 1 /\
     index_draw_count st' = index_draw_count st + count /\
     vertex_draw_count st' = vertex_draw_count st) /\
  (forall ib, index_buffer = Some ib ->
     BYTES_PER_ELEMENT ib <> 2 -> BYTES_PER_ELEMENT ib <> 4 ->
     fst r = Throw (Error "Unknown index buffer type")) /\
  (index_buffer = None ->
     fst r = Ret tt /\
     filter is_draw_command (calls_since w (snd r))
       = [DrawArrays draw_mode offset count] /\
     draw_calls st' = draw_calls st + 1 /\
     vertex_draw_count st' = vertex_draw_count st + count /\
     index_draw_count st' = index_draw_count st).
Proof.
  destruct w as [[? ? ? ? ? ? [? ? ? ? ? ? ?] ?] ? ? ? ?].
  destruct index_buffer as [[? ?]|], vertex_buffer as [?], mat as [[? ?]|].
  all: intros r st st'; subst r st st'; split; [|split; [|split]].
  all: try (intros ? [= <-]; cbn [BYTES_PER_ELEMENT]); try (intros ? [=]);
       try (intros [=]); intros; draw_cases.
  all: try (repeat split; reflexivity).
  all: lia.
Qed.

(** C10. When [draw] throws [Unknown index buffer type], an index
    buffer of element size other than 2 and 4 was passed; no draw
    command has been issued and [draw_calls], [index_draw_count] and
    [vertex_draw_count] keep their values; the bindings made earlier in
    the call stay: the tracked fields hold the arguments and each bind
    counter has grown by one where the argument differed from the
    tracked object. *)
Theorem draw_throw_keeps_bindings
    (draw_mode count offset : Z) (index_buffer : option IndexBuffer)
    (vertex_buffer : VertexBuffer) (mat : option Material) (w : World) :
  let r := draw draw_mode count offset index_buffer vertex_buffer mat w in
  let st := stats (this w) in
  let st' := stats (this (snd r)) in
  let changed (a : ref) (cur : option ref) : Z :=
    if bool_decide (Some a <> cur) then 1 else 0 in
  fst r = Throw (Error "Unknown index buffer type") ->
  (exists ib, index_buffer = Some ib /\
     BYTES_PER_ELEMENT ib <> 2 /\ BYTES_PER_ELEMENT ib <> 4 /\
     current_index_buffer (this (snd r)) = Some (index_buffer_ref ib) /\
     index_buffer_bind_count st' = index_buffer_bind_count st
       + changed (index_buffer_ref ib) (current_index_buffer (this w))) /\
  filter is_draw_command (calls_since w (snd r)) = [] /\
  draw_calls st' = draw_calls st /\
  index_draw_count st' = index_draw_count st /\
  vertex_draw_count st' = vertex_draw_count st /\
  current_vertex_buffer (this (snd r)) = Some (vertex_buffer_ref vertex_buffer) /\
  vertex_buffer_bind_count st' = vertex_buffer_bind_count st
    + changed (vertex_buffer_ref vertex_buffer) (current_vertex_buffer (this w)) /\
  match mat with
  | Some m =>
      current_shader (this (snd r)) = Some (shader m) /\
      current_material (this (snd r)) = Some (material_ref m) /\
      shader_bind_count st' = shader_bind_count st
        + changed (shader m) (current_shader (this w)) /\
      material_bind_count st' = material_bind_count st
        + changed (material_ref m) (current_material (this w))
  | None =>
      current_shader (this (snd r)) = current_shader (this w) /\
      current_material (this (snd r)) = current_material (this w) /\
      shader_bind_count st' = shader_bind_count st /\
      material_bind_count st' = material_bind_count st
  end.
Proof.
  destruct w as [[? ? ? ? ? ? [? ? ? ? ? ? ?] ?] ? ? ? ?].
  destruct index_buffer as [[? ?]|], vertex_buffer as [?], mat as [[? ?]|].
  all: intros r st st' changed; subst r st st' changed.
  all: cbn [this stats current_shader current_material current_vertex_buffer
            current_index_buffer shader material_ref].
  all: draw_cases; intros Hthrow; try discriminate Hthrow.
  all: split; [eexists; split; [reflexivity|]; cbn [BYTES_PER_ELEMENT index_buffer_ref]|].
  all: repeat split; try reflexivity; try assumption; try lia.
  all: try congruence.
  all: repeat case_bool_decide; first [lia | congruence | contradiction].
Qed.

(** The earlier revision caches and dispatches the same way: a shader,
    vertex buffer or index buffer that is already current is not bound
    again, and the draw command follows the index element size. *)
Lemma legacy_draw_skips_current_bindings
    (draw_mode count offset : Z) (index_buffer : option IndexBuffer)
    (vertex_buffer : VertexBuffer) (sh : ref) (w : World) :
  let w' := snd (Legacy.draw draw_mode count offset index_buffer vertex_buffer sh w) in
  (Some sh = current_shader (this w) -> forall r, ShaderUse r ∉ calls_since w w') /\
  (Some (vertex_buffer_ref vertex_buffer) = current_vertex_buffer (this w) ->
     forall r, VertexBufferBind r ∉ calls_since w w') /\
  (forall ib, index_buffer = Some ib ->
     Some (index_buffer_ref ib) = current_index_buffer (this w) ->
     forall r, IndexBufferBind r ∉ calls_since w w').
Proof.
  destruct w as [[? ? ? ? ? ? ? ?] ? ? ? ?].
  destruct index_buffer as [[? ?]|], vertex_buffer as [?].
  all: intros w'; subst w'; split; [|split].
  all: try (intros ? [= <-]); try (intros ? [=]); intros Hs; revert Hs.
  all: unfold Legacy.draw; draw_cases; intros Hs; try congruence.
  all: intros; not_in_log.
Qed.

Lemma legacy_draw_dispatch
    (draw_mode count offset : Z) (index_buffer : option IndexBuffer)
    (vertex_buffer : VertexBuffer) (sh : ref) (w : World) :
  let r := Legacy.draw draw_mode count offset index_buffer vertex_buffer sh w in
  match index_buffer with
  | Some ib =>
      if bool_decide (BYTES_PER_ELEMENT ib = 2) then
        fst r = Ret tt /\
        filter is_draw_command (calls_since w (snd r))
          = [DrawElements draw_mode count UNSIGNED_SHORT offset]
      else if bool_decide (BYTES_PER_ELEMENT ib = 4) then
        fst r = Ret tt /\
        filter is_draw_command (calls_since w (snd r))
          = [DrawElements draw_mode count UNSIGNED_INT offset]
      else
        fst r = Throw (ThrownString "Unknown index buffer type") /\
        filter is_draw_command (calls_since w (snd r)) = []
  | None =>
      fst r = Ret tt /\
      filter is_draw_command (calls_since w (snd r)) = [DrawArrays draw_mode offset count]
  end.
Proof.
  destruct w as [[? ? ? ? ? ? ? ?] ? ? ? ?].
  destruct index_buffer as [[? ?]|], vertex_buffer as [?].
  all: intros r; subst r; unfold Legacy.draw; draw_cases; split; reflexivity.
Qed.

End DrawProperties.

Section FrameProperties.
Context {GM : GlMatrix}.

Lemma setPerFrameUniforms_returns (view proj : mat4) (w : World) :
  fst (setPerFrameUniforms view proj w) = Ret tt.
Proof.
  destruct w as [[? ? ? ? ? ? ? ?] ? ? ? ?].
  step_uniforms. destruct (mat4_invert view); reflexivity.
Qed.

Lemma keeps_viewport_ret {A} (a : A) : keeps_viewport (mret a).
Proof. intros w; reflexivity. Qed.

Lemma keeps_viewport_throw {A} (e : exn) : keeps_viewport (@throw _ A e).
Proof. intros w; reflexivity. Qed.

Lemma keeps_viewport_bind {A B} (m : M A) (k : A -> M B) :
  keeps_viewport m -> (forall a, keeps_viewport (k a)) -> keeps_viewport (m ≫= k).
Proof.
  intros Hm Hk w. unfold mbind, M_bind. specialize (Hm w).
  destruct (m w) as [[a|e] w1]; cbn [snd] in *; [rewrite Hk|]; exact Hm.
Qed.

Lemma keeps_viewport_get_this : keeps_viewport get_this.
Proof. intros w; reflexivity. Qed.

Lemma keeps_viewport_get_scratch : keeps_viewport get_scratch.
Proof. intros w; reflexivity. Qed.

Lemma keeps_viewport_call (c : Call) : keeps_viewport (call c).
Proof. intros w; reflexivity. Qed.

Lemma keeps_viewport_modify_scratch (g : Scratch -> Scratch) :
  keeps_viewport (modify_scratch g).
Proof. intros w; reflexivity. Qed.

Lemma keeps_viewport_modify_this (g : Renderer -> Renderer) :
  (forall r, viewport (g r) = viewport r) -> keeps_viewport (modify_this g).
Proof. intros Hg w; apply Hg. Qed.

(** Decomposes a method along its binds and branches. *)
Ltac keeps_viewport_tac :=
  repeat lazymatch goal with
    | |- keeps_viewport (mbind _ _) => apply keeps_viewport_bind; [|intros ?]
    | |- keeps_viewport (mret _) => apply keeps_viewport_ret
    | |- keeps_viewport (throw _) => apply keeps_viewport_throw
    | |- keeps_viewport get_this => apply keeps_viewport_get_this
    | |- keeps_viewport get_scratch => apply keeps_viewport_get_scratch
    | |- keeps_viewport (call _) => apply keeps_viewport_call
    | |- keeps_viewport (modify_scratch _) => apply keeps_viewport_modify_scratch
    | |- keeps_viewport (modify_this _) =>
        apply keeps_viewport_modify_this; intros []; reflexivity
    | |- keeps_viewport (match ?x with _ => _ end) => destruct x
    end.

Lemma run_keeps_viewport (c : Method) (w : World) :
  is_setViewport c = false ->
  viewport (this (snd (run c w))) = viewport (this w).
Proof.
  intros Hc. revert w. fold (keeps_viewport (run c)).
  destruct c; try discriminate Hc; cbn [run];
    unfold setPerFrameUniforms, setPerModelUniforms, resetViewport, resetSaveBindings,
      draw, resetStats, invert_into_temp, mul_into_temp, mul_into_modelview,
      mul_into_mvp, normalFromMat4_out, uboPerFrameBlock_update, uboPerModelBlock_update;
    keeps_viewport_tac.
Qed.

Lemma run_all_keeps_viewport (cs : list Method) (w : World) :
  forallb (fun c => negb (is_setViewport c)) cs = true ->
  viewport (this (run_all cs w)) = viewport (this w).
Proof.
  revert w; induction cs as [|c cs IH]; intros w Hcs; [reflexivity|].
  cbn [forallb] in Hcs. apply andb_prop in Hcs as [Hc Hcs].
  cbn [run_all]. rewrite IH by exact Hcs.
  apply run_keeps_viewport. destruct (is_setViewport c); [discriminate | reflexivity].
Qed.

(** C7. [setViewport(x, y, width, height)] stores exactly these four
    values in [viewport] and issues [gl.viewport] with them; a later
    [resetViewport], after any calls of the renderer's methods other
    than [setViewport], issues [gl.viewport] with the same values. *)
Theorem setViewport_resetViewport
    (x y width height : Z) (between : list Method) (w : World) :
  forallb (fun c => negb (is_setViewport c)) between = true ->
  let r := setViewport x y width height w in
  fst r = Ret tt /\
  viewport (this (snd r)) = Build_ViewportDimensions x y width height /\
  calls_since w (snd r) = [Viewport x y width height] /\
  let w2 := run_all between (snd r) in
  fst (resetViewport w2) = Ret tt /\
  calls_since w2 (snd (resetViewport w2)) = [Viewport x y width height].
Proof.
  intros Hb r.
  assert (Hset : viewport (this (snd r)) = Build_ViewportDimensions x y width height).
  { subst r. destruct w as [[? ? ? ? ? ? ? ?] ? ? ? ?]. reflexivity. }
  split; [reflexivity|]. split; [exact Hset|]. split.
  - subst r. destruct w as [[? ? ? ? ? ? ? ?] ? ? ? ?]. step_method. cut_log. reflexivity.
  - intros w2. split; [reflexivity|].
    assert (Hvp : viewport (this w2) = Build_ViewportDimensions x y width height).
    { subst w2. rewrite run_all_keeps_viewport by exact Hb. exact Hset. }
    step_method. cut_log. rewrite Hvp. reflexivity.
Qed.

(** C8. [resetStats] zeroes every counter of the statistics and clears
    the tracked shader and material; the tracked vertex and index
    buffers and the viewport keep their values.  [setPerFrameUniforms]
    ends with [resetStats]: every call of it returns with the shader and
    material cache cleared and the buffer cache kept. *)
Theorem resetStats_clears_shader_and_material (w : World) :
  let r := resetStats w in
  (fst r = Ret tt /\
   stats (this (snd r)) = Build_RendererStats 0 0 0 0 0 0 0 /\
   current_shader (this (snd r)) = None /\
   current_material (this (snd r)) = None /\
   current_vertex_buffer (this (snd r)) = current_vertex_buffer (this w) /\
   current_index_buffer (this (snd r)) = current_index_buffer (this w) /\
   viewport (this (snd r)) = viewport (this w)) /\
  (forall view proj : mat4,
     let r' := setPerFrameUniforms view proj w in
     fst r' = Ret tt /\
     (exists w1, snd r' = snd (resetStats w1)) /\
     stats (this (snd r')) = Build_RendererStats 0 0 0 0 0 0 0 /\
     current_shader (this (snd r')) = None /\
     current_material (this (snd r')) = None /\
     current_vertex_buffer (this (snd r')) = current_vertex_buffer (this w) /\
     current_index_buffer (this (snd r')) = current_index_buffer (this w)).
Proof.
  split.
  - destruct w as [[? ? ? ? ? ? ? ?] ? ? ? ?]. repeat split.
  - intros view proj r'.
    assert (exists w1, r' = resetStats w1 /\
              current_vertex_buffer (this w1) = current_vertex_buffer (this w) /\
              current_index_buffer (this w1) = current_index_buffer (this w))
      as (w1 & -> & Hvb & Hib).
    { subst r'. destruct w as [[? ? ? ? ? ? ? ?] ? ? ? ?].
      lazy beta iota zeta delta
        [setPerFrameUniforms invert_into_temp mul_into_temp uboPerFrameBlock_update
         modify_scratch get_this modify_this call mbind M_bind mret M_ret
         this statics scratch gl next_ref fst snd].
      destruct (mat4_invert view); eexists; (split; [reflexivity|]);
        split; reflexivity. }
    rewrite <- Hvb, <- Hib. destruct w1 as [[? ? ? ? ? ? ? ?] ? ? ? ?].
    split; [reflexivity|]. split; [eexists; reflexivity|]. repeat split.
Qed.

End FrameProperties.

Section UniformProperties.
Context {GM : GlMatrix}.




(** C4, as the code has it.  Whenever [mat3.normalFromMat4] yields a
    matrix [n] for [view * model] and the scratch [normalview_matrix]
    is not [null], [setPerModelUniforms] writes [model], [model_view] =
    [view * model], [normal_view] = [n] and [mvp] = [proj * (view *
    model)] into the per-model block and uploads the block exactly
    once. *)
Theorem setPerModelUniforms_writes_block
    (model_matrix view_matrix proj_matrix : mat4) (n : mat3) (w : World) :
  mat3_normalFromMat4 (mat4_mul view_matrix model_matrix) = Some n ->
  normalview_matrix (scratch w) <> None ->
  let r := setPerModelUniforms model_matrix view_matrix proj_matrix w in
  let block := ub_items (uboPerModelBlock (this (snd r))) in
  fst r = Ret tt /\
  block !! "model" = Some (UMat4 model_matrix) /\
  block !! "model_view" = Some (UMat4 (mat4_mul view_matrix model_matrix)) /\
  block !! "normal_view" = Some (UMat3 n) /\
  block !! "mvp" = Some (UMat4 (mat4_mul proj_matrix (mat4_mul view_matrix model_matrix))) /\
  calls_since w (snd r)
    = [UniformBufferUpdate (ub_block_name (uboPerModelBlock (this w))) block].
Proof.
  intros Hn Hnv r block; subst r block.
  destruct w as [[? ? ? ? ? [? ? ? ?] ? ?] ? [? ? [nv|] ?] ? ?]; [|done].
  step_uniforms.
  lazy beta iota zeta delta [set_modelview_matrix modelview_matrix normalview_matrix].
  rewrite Hn.
  lazy beta iota zeta delta
    [this statics scratch gl next_ref fst snd upd_uboPerModelBlock
     set_modelview_matrix modelview_matrix normalview_matrix set_normalview_matrix
     set_mvp_matrix UniformBuffer_set uboPerModelBlock ub_items ub_block_name].
  rewrite drop_app_length.
  repeat split; by simplify_map_eq.
Qed.


(** The failure of C9 leaves the shared [normalview_matrix] null, and a
    later call whose matrices are invertible then fails with a
    [TypeError] instead of writing the block. *)
Lemma setPerModelUniforms_failure_nulls_scratch
    (model_matrix view_matrix proj_matrix : mat4) (w : World) :
  let r := setPerModelUniforms model_matrix view_matrix proj_matrix w in
  fst r = Throw (Error "Determinant could not be calculated for normalview_matrix") ->
  normalview_matrix (scratch (snd r)) = None.
Proof.
  destruct w as [[? ? ? ? ? [? ? ? ?] ? ?] ? [? ? nv ?] ? ?].
  step_uniforms.
  lazy beta iota zeta delta [set_modelview_matrix modelview_matrix normalview_matrix].
  destruct (mat3_normalFromMat4 (mat4_mul view_matrix model_matrix)) as [n|];
    [destruct nv|]; intros Hthrow; try discriminate Hthrow.
  reflexivity.
Qed.

Lemma setPerModelUniforms_null_scratch_throws
    (model_matrix view_matrix proj_matrix : mat4) (n : mat3) (w : World) :
  normalview_matrix (scratch w) = None ->
  mat3_normalFromMat4 (mat4_mul view_matrix model_matrix) = Some n ->
  let r := setPerModelUniforms model_matrix view_matrix proj_matrix w in
  fst r = Throw (TypeError "Cannot set properties of null") /\
  normalview_matrix (scratch (snd r)) = None /\
  calls_since w (snd r) = [].
Proof.
  destruct w as [[? ? ? ? ? [? ? ? ?] ? ?] ? [? ? nv ?] ? ?].
  cbn [scratch normalview_matrix]. intros -> Hn.
  step_uniforms.
  lazy beta iota zeta delta [set_modelview_matrix modelview_matrix normalview_matrix].
  rewrite Hn. cbn [fst snd scratch gl normalview_matrix set_modelview_matrix].
  rewrite drop_all. repeat split.
Qed.

End UniformProperties.

Section ConstructorProperties.
Context {GM : GlMatrix}.

Lemma Map_get_set_eq {V} (k : string) (v : V) (m : list (string * V)) :
  Map_get k (Map_set k v m) = Some v.
Proof.
  induction m as [|[k' v'] m IH]; cbn.
  - by rewrite decide_True.
  - destruct (decide (k' = k)) as [->|Hne]; cbn.
    + by rewrite decide_True.
    + by rewrite decide_False.
Qed.

Lemma Map_get_set_ne {V} (k k' : string) (v : V) (m : list (string * V)) :
  k <> k' -> Map_get k' (Map_set k v m) = Map_get k' m.
Proof.
  intros Hne. induction m as [|[k0 v0] m IH]; cbn.
  - by rewrite decide_False.
  - destruct (decide (k0 = k)) as [->|Hne0]; cbn.
    + by rewrite !decide_False.
    + destruct (decide (k0 = k')); [reflexivity | exact IH].
Qed.

(** One round of the loop: the entry is constructed and stored under
    its name, other names are untouched. *)
Lemma create_shaders_head (s : ShaderSource) (rest : list ShaderSource) (w : World) :
  exists sh w1,
    create_shaders (s :: rest) w = create_shaders rest w1 /\
    Map_get (name s) (_Shaders (statics w1)) = Some sh /\
    (forall k, k <> name s ->
       Map_get k (_Shaders (statics w1)) = Map_get k (_Shaders (statics w))) /\
    vertexSourceCode sh = vert s /\
    fragmentSourceCode sh = frag s /\
    shader_class sh = match subclass s with Some c => c | None => BaseShader end.
Proof.
  destruct w as [? [? ? ? shaders] ? ? ?], s as [nm vs fs [c|]];
    (eexists; eexists; split; [reflexivity|]);
    cbn [statics _Shaders upd_Shaders name vert frag subclass];
    (split; [apply Map_get_set_eq|]);
    (split; [intros k Hk; apply Map_get_set_ne; congruence|]);
    repeat split.
Qed.

Lemma create_shaders_keeps_other (sources : list ShaderSource) (k : string) (w : World) :
  k ∉ map name sources ->
  Map_get k (_Shaders (statics (snd (create_shaders sources w))))
    = Map_get k (_Shaders (statics w)).
Proof.
  revert w; induction sources as [|s rest IH]; intros w Hk; [reflexivity|].
  apply not_elem_of_cons in Hk as [Hne Hk].
  destruct (create_shaders_head s rest w) as (sh & w1 & -> & _ & Hother & _).
  rewrite IH by exact Hk. apply Hother, Hne.
Qed.

(** For any shader table with pairwise distinct names, the loop of the
    constructor leaves every entry retrievable under its name, built
    from its own sources by its own class. *)
Lemma create_shaders_registers (sources : list ShaderSource) (s : ShaderSource) (w : World) :
  NoDup (map name sources) -> s ∈ sources ->
  exists sh,
    Map_get (name s) (_Shaders (statics (snd (create_shaders sources w)))) = Some sh /\
    vertexSourceCode sh = vert s /\
    fragmentSourceCode sh = frag s /\
    shader_class sh = match subclass s with Some c => c | None => BaseShader end.
Proof.
  revert w; induction sources as [|s0 rest IH]; intros w Hnd Hs.
  - by apply elem_of_nil in Hs.
  - apply NoDup_cons in Hnd as [Hfresh Hnd].
    destruct (create_shaders_head s0 rest w) as (sh & w1 & -> & Hget & _ & Hv & Hf & Hc).
    apply elem_of_cons in Hs as [-> | Hs].
    + exists sh. rewrite create_shaders_keeps_other by exact Hfresh. done.
    + apply IH; assumption.
Qed.

(** C6. After the constructor, [GetShader(s.name)] returns, for every
    entry [s] of [ShaderSources], a shader built from [s.vert] and
    [s.frag] by [s.subclass] when defined and by the base class
    otherwise; both default textures are set; the uniform blocks
    [ubo_per_frame] and [ubo_per_model] exist and are bound, at binding
    points 0 and 1, to every shader that was constructed. *)
Theorem constructor_initialises (w : World) :
  let r := constructor w in
  let calls := calls_since w (snd r) in
  fst r = Ret tt /\
  (forall s, s ∈ ShaderSources ->
     exists sh,
       fst (GetShader (name s) (snd r)) = Ret (Some sh) /\
       NewShader sh ∈ calls /\
       vertexSourceCode sh = vert s /\
       fragmentSourceCode sh = frag s /\
       shader_class sh = match subclass s with Some c => c | None => BaseShader end) /\
  (exists t, fst (EMPTY_TEXTURE (snd r)) = Ret (Some t) /\ NewTexture2D t ∈ calls) /\
  (exists c, fst (EMPTY_CUBE_TEXTURE (snd r)) = Ret (Some c) /\
     NewTextureCubeMap c ∈ calls) /\
  ub_block_name (uboPerFrameBlock (this (snd r))) = "ubo_per_frame" /\
  ub_block_name (uboPerModelBlock (this (snd r))) = "ubo_per_model" /\
  (exists layout,
     NewUniformBuffer "ubo_per_frame" layout ∈ calls /\
     NewUniformBuffer "ubo_per_model" layout ∈ calls) /\
  (forall sh, NewShader sh ∈ calls ->
     (shader_ref sh, 0) ∈ ub_bindings (uboPerFrameBlock (this (snd r))) /\
     (shader_ref sh, 1) ∈ ub_bindings (uboPerModelBlock (this (snd r))) /\
     UniformBufferBindShader "ubo_per_frame" (shader_ref sh) 0 ∈ calls /\
     UniformBufferBindShader "ubo_per_model" (shader_ref sh) 1 ∈ calls).
Proof.
  destruct w as [[? ? ? ? ? ? ? ?] [? ? ? ?] ? log nr].
  intros r calls; subst calls.
  remember (constructor _) as res eqn:Hres in r.
  lazy beta iota zeta delta -[app drop length] in Hres.
  rewrite <- !app_assoc in Hres. cbn [app] in Hres.
  subst r res. unfold calls_since.
  cbn [fst snd gl statics this uboPerFrameBlock uboPerModelBlock ub_block_name
       ub_bindings].
  rewrite drop_app_length.
  split; [reflexivity|]. split.
  { intros s Hs. unfold ShaderSources in Hs.
    repeat (apply elem_of_cons in Hs as [-> | Hs]);
      [| | | | | | | | by apply elem_of_nil in Hs].
    all: eexists; split; [reflexivity|]; split;
      [repeat first [by apply list_elem_of_here | apply list_elem_of_further]
      | repeat split]. }
  split. { eexists; split; [reflexivity | apply list_elem_of_here]. }
  split. { eexists; split; [reflexivity | apply list_elem_of_further, list_elem_of_here]. }
  split; [reflexivity|]. split; [reflexivity|]. split.
  { eexists; split;
      repeat first [by apply list_elem_of_here | apply list_elem_of_further]. }
  intros sh Hsh.
  repeat (apply elem_of_cons in Hsh as [Hsh | Hsh]; try discriminate Hsh);
    [| | | | | | | | by apply elem_of_nil in Hsh].
  all: injection Hsh as ->; cbn [shader_ref].
  all: repeat split;
    repeat first [by apply list_elem_of_here | apply list_elem_of_further].
Qed.

End ConstructorProperties.

(** ** The exact instance satisfies the laws *)
Module ExactLaws.
Import Exact.
Local Open Scope Qc_scope.

Lemma multiply_assoc (a b c : mat4q) :
  multiply (multiply a b) c = multiply a (multiply b c).
Proof. destruct a, b, c; cbn; f_equal; ring. Qed.

Lemma multiply_create_l (a : mat4q) : multiply create4 a = a.
Proof. destruct a; cbn; f_equal; ring. Qed.

Lemma multiply_create_r (a : mat4q) : multiply a create4 = a.
Proof. destruct a; cbn; f_equal; ring. Qed.

Lemma determinant_multiply (a b : mat4q) :
  determinant (multiply a b) = determinant a * determinant b.
Proof. destruct a, b; cbn; ring. Qed.

Lemma determinant_create : determinant create4 = 1.
Proof. cbn; ring. Qed.

Lemma invert_None (a : mat4q) : invert a = None <-> determinant a = 0.
Proof.
  destruct a; unfold invert; cbn -[determinant].
  case_decide; split; intros; congruence.
Qed.

Lemma invert_Some (a b : mat4q) :
  invert a = Some b -> multiply a b = create4 /\ multiply b a = create4.
Proof.
  destruct a; unfold invert; cbn -[determinant].
  case_decide as Hd; [discriminate|]. intros [= <-].
  cbn in Hd. split; cbn; unfold create4; f_equal; field; exact Hd.
Qed.

Lemma inverse_unique (a b c : mat4q) :
  multiply b a = create4 -> multiply a c = create4 -> b = c.
Proof.
  intros Hba Hac.
  rewrite <- (multiply_create_r b), <- Hac, <- multiply_assoc, Hba.
  apply multiply_create_l.
Qed.

Lemma invert_complete (a b : mat4q) :
  multiply a b = create4 -> multiply b a = create4 -> invert a = Some b.
Proof.
  intros Hab Hba.
  destruct (invert a) as [c|] eqn:E.
  - apply invert_Some in E as [Hac _]. f_equal. symmetry.
    exact (inverse_unique a b c Hba Hac).
  - apply invert_None in E.
    pose proof (determinant_multiply a b) as Hd.
    rewrite Hab, determinant_create, E in Hd.
    exfalso. revert Hd. rewrite Qcmult_0_l. discriminate.
Qed.

Lemma normalFromMat4_None (a : mat4q) :
  normalFromMat4 a = None <-> determinant a = 0.
Proof.
  destruct a; unfold normalFromMat4; cbn -[determinant].
  case_decide; split; intros; congruence.
Qed.

(** [normalFromMat4] is the transposed upper-left 3x3 block of the
    inverse of the whole 4x4 matrix. *)
Lemma normalFromMat4_is_inverse_transpose (a b : mat4q) :
  invert a = Some b ->
  normalFromMat4 a
    = Some (Mat3 (a00 b) (a10 b) (a20 b)
                 (a01 b) (a11 b) (a21 b)
                 (a02 b) (a12 b) (a22 b)).
Proof.
  destruct a; unfold invert, normalFromMat4; cbn -[determinant].
  case_decide; [discriminate|]. intros [= <-]. reflexivity.
Qed.

(** On a matrix whose fourth row is [(0, 0, 0, w)] with [w] not zero
    (an affine transform) the result is the inverse-transpose of the
    upper-left 3x3 block; on other matrices the two can differ. *)
Lemma normalFromMat4_affine (a : mat4q) :
  a03 a = 0 -> a13 a = 0 -> a23 a = 0 -> a33 a <> 0 ->
  normalFromMat4 a = upper3_inverse_transpose a.
Proof.
  destruct a as [a00 a01 a02 a03 a10 a11 a12 a13 a20 a21 a22 a23 a30 a31 a32 a33].
  cbn [Exact.a03 Exact.a13 Exact.a23 Exact.a33]. intros -> -> -> Hw.
  unfold normalFromMat4, upper3_inverse_transpose, minors_of; cbv beta iota zeta.
  set (m := Mat4 _ _ _ _ _ _ _ _ _ _ _ _ _ _ _ _).
  assert (Hdet : determinant m = a33 * upper3_determinant m) by (cbn; ring).
  rewrite Hdet.
  destruct (decide (upper3_determinant m = 0)) as [Hz|Hnz].
  - rewrite decide_True; [reflexivity|]. rewrite Hz. ring.
  - rewrite decide_False.
    + subst m. cbn in Hnz |- *. f_equal. f_equal; field; split; assumption.
    + intros H. apply Qcmult_integral in H as [H|H]; contradiction.
Qed.

Lemma normalFromMat4_not_upper3 :
  normalFromMat4 exchange_zw = Some (Mat3 1 0 0  0 1 0  0 0 0) /\
  upper3_inverse_transpose exchange_zw = None.
Proof. split; reflexivity. Qed.

#[global] Instance laws : GlMatrixLaws gl_matrix.
Proof.
  split.
  - intros a b; split.
    + apply invert_Some.
    + intros [Hab Hba]. exact (invert_complete a b Hab Hba).
  - intros a. cbn. rewrite normalFromMat4_None, invert_None. reflexivity.
Qed.

End ExactLaws.

(** ** The statements at concrete inputs *)
Section Instances.
Import Exact Scene.
#[local] Existing Instance gl_matrix.

Lemma draw_no_redundant_state_change_witness :
  let w' := snd (draw TRIANGLES 36 0 (Some ib16) vb (Some pbr) drawn) in
  (Some (shader pbr) = current_shader (this drawn) /\
   Some (material_ref pbr) = current_material (this drawn) /\
   Some (vertex_buffer_ref vb) = current_vertex_buffer (this drawn) /\
   Some (index_buffer_ref ib16) = current_index_buffer (this drawn)) /\
  ((forall sh, ShaderUse sh ∉ calls_since drawn w') /\
   shader_bind_count (stats (this w')) = shader_bind_count (stats (this drawn))) /\
  ((forall r, MaterialActivate r ∉ calls_since drawn w') /\
   material_bind_count (stats (this w')) = material_bind_count (stats (this drawn))) /\
  ((forall r, VertexBufferBind r ∉ calls_since drawn w') /\
   vertex_buffer_bind_count (stats (this w'))
     = vertex_buffer_bind_count (stats (this drawn))) /\
  ((forall r, IndexBufferBind r ∉ calls_since drawn w') /\
   index_buffer_bind_count (stats (this w'))
     = index_buffer_bind_count (stats (this drawn))).
Proof.
  pose proof (draw_no_redundant_state_change TRIANGLES 36 0 (Some ib16) vb (Some pbr) drawn)
    as (Hs & Hm & Hv & Hi).
  split; [repeat split|].
  split; [apply (Hs pbr); reflexivity|].
  split; [apply (Hm pbr); reflexivity|].
  split; [apply Hv; reflexivity|].
  apply (Hi ib16); reflexivity.
Defined.

Lemma draw_tracks_arguments_witness :
  let r := draw TRIANGLES 36 0 (Some ib16) vb (Some pbr) fresh in
  fst r = Ret tt /\
  current_vertex_buffer (this (snd r)) = Some 30%nat /\
  current_index_buffer (this (snd r)) = Some 20%nat /\
  current_shader (this (snd r)) = Some 3%nat /\
  current_material (this (snd r)) = Some 40%nat.
Proof.
  split; [reflexivity|].
  apply (draw_tracks_arguments TRIANGLES 36 0 (Some ib16) vb (Some pbr) fresh).
  reflexivity.
Defined.

Lemma draw_dispatch_witness :
  (let r := draw TRIANGLES 36 0 (Some ib16) vb (Some pbr) fresh in
   fst r = Ret tt /\
   filter is_draw_command (calls_since fresh (snd r))
     = [DrawElements TRIANGLES 36 UNSIGNED_SHORT 0] /\
   draw_calls (stats (this (snd r))) = 1 /\
   index_draw_count (stats (this (snd r))) = 36) /\
  (let r := draw TRIANGLES 36 0 (Some ib32) vb (Some pbr) fresh in
   fst r = Ret tt /\
   filter is_draw_command (calls_since fresh (snd r))
     = [DrawElements TRIANGLES 36 UNSIGNED_INT 0]) /\
  (let r := draw TRIANGLES 36 0 (Some ib8) vb (Some pbr) fresh in
   fst r = Throw (Error "Unknown index buffer type")) /\
  (let r := draw TRIANGLES 36 0 None vb None fresh in
   fst r = Ret tt /\
   filter is_draw_command (calls_since fresh (snd r))
     = [DrawArrays TRIANGLES 0 36] /\
   draw_calls (stats (this (snd r))) = 1 /\
   vertex_draw_count (stats (this (snd r))) = 36).
Proof.
  split; [|split; [|split]].
  - destruct (draw_dispatch TRIANGLES 36 0 (Some ib16) vb (Some pbr) fresh)
      as (H & _).
    destruct (H ib16 eq_refl eq_refl) as (H1 & H2 & H3 & H4 & _).
    exact (conj H1 (conj H2 (conj H3 H4))).
  - destruct (draw_dispatch TRIANGLES 36 0 (Some ib32) vb (Some pbr) fresh)
      as (_ & H & _).
    destruct (H ib32 eq_refl eq_refl) as (H1 & H2 & _).
    split; [exact H1 | exact H2].
  - destruct (draw_dispatch TRIANGLES 36 0 (Some ib8) vb (Some pbr) fresh)
      as (_ & _ & H & _).
    apply (H ib8 eq_refl); discriminate.
  - destruct (draw_dispatch TRIANGLES 36 0 None vb None fresh)
      as (_ & _ & _ & H).
    destruct (H eq_refl) as (H1 & H2 & H3 & H4 & _).
    exact (conj H1 (conj H2 (conj H3 H4))).
Defined.

Lemma draw_throw_keeps_bindings_witness :
  let r := draw TRIANGLES 36 0 (Some ib8) vb (Some pbr) fresh in
  fst r = Throw (Error "Unknown index buffer type") /\
  filter is_draw_command (calls_since fresh (snd r)) = [] /\
  draw_calls (stats (this (snd r))) = 0 /\
  current_vertex_buffer (this fresh) = None /\
  current_vertex_buffer (this (snd r)) = Some 30%nat /\
  vertex_buffer_bind_count (stats (this (snd r))) = 1.
Proof.
  split; [reflexivity|].
  destruct (draw_throw_keeps_bindings TRIANGLES 36 0 (Some ib8) vb (Some pbr)
              fresh eq_refl) as (_ & H1 & H2 & _ & _ & H3 & H4 & _).
  split; [exact H1|]. split; [exact H2|]. split; [reflexivity|].
  split; [exact H3 | exact H4].
Defined.

Lemma setViewport_resetViewport_witness :
  let between :=
    [Call_draw TRIANGLES 36 0 (Some ib16) vb (Some pbr);
     Call_setPerFrameUniforms create4 create4; Call_resetSaveBindings] in
  let w1 := snd (setViewport 0 0 800 600 fresh) in
  let w2 := run_all between w1 in
  forallb (fun c => negb (is_setViewport c)) between = true /\
  viewport (this w1) = Build_ViewportDimensions 0 0 800 600 /\
  calls_since w2 (snd (resetViewport w2)) = [Viewport 0 0 800 600].
Proof.
  intros between w1 w2. split; [reflexivity|].
  destruct (setViewport_resetViewport 0 0 800 600 between fresh eq_refl)
    as (_ & H1 & _ & _ & H2).
  split; [exact H1 | exact H2].
Defined.


Lemma setPerModelUniforms_writes_block_witness :
  let model := move in
  let r := setPerModelUniforms model create4 create4 fresh in
  mat3_normalFromMat4 (mat4_mul create4 model) = Some create3 /\
  normalview_matrix (scratch fresh) <> None /\
  fst r = Ret tt /\
  ub_items (uboPerModelBlock (this (snd r))) !! "normal_view" = Some (UMat3 create3) /\
  ub_items (uboPerModelBlock (this (snd r))) !! "mvp" = Some (UMat4 model).
Proof.
  intros model r.
  assert (Hn : mat3_normalFromMat4 (mat4_mul create4 model) = Some create3)
    by reflexivity.
  assert (Hs : normalview_matrix (scratch fresh) <> None)
    by (intros H; vm_compute in H; discriminate H).
  split; [exact Hn|]. split; [exact Hs|].
  destruct (setPerModelUniforms_writes_block (GM := gl_matrix)
              model create4 create4 create3 fresh Hn Hs) as (H1 & _ & _ & H2 & H3 & _).
  split; [exact H1|]. split; [exact H2 | exact H3].
Defined.

(** C4 as stated fails: for the zero model matrix the call throws,
    writes neither [normal_view] nor [mvp] and uploads nothing. *)
Lemma setPerModelUniforms_singular_counterexample :
  let r := setPerModelUniforms zero4 create4 create4 fresh in
  fst r = Throw (Error "Determinant could not be calculated for normalview_matrix") /\
  ub_items (uboPerModelBlock (this (snd r))) !! "normal_view" = None /\
  ub_items (uboPerModelBlock (this (snd r))) !! "mvp" = None /\
  filter is_upload (calls_since fresh (snd r)) = [].
Proof. repeat split. Qed.


Lemma constructor_initialises_witness :
  let r := constructor (GM := gl_matrix) blank_world in
  ShaderSource.PBR ∈ ShaderSources /\
  fst r = Ret tt /\
  (exists sh,
     fst (GetShader "PBRShader" (snd r)) = Ret (Some sh) /\
     shader_class sh = PBRShader /\
     fragmentSourceCode sh = ShaderSource.pbrFrag).
Proof.
  intros r.
  assert (Hin : ShaderSource.PBR ∈ ShaderSources)
    by apply list_elem_of_further, list_elem_of_here.
  split; [exact Hin|].
  destruct (constructor_initialises (GM := gl_matrix) blank_world) as (Hret & Hsh & _).
  split; [exact Hret|].
  destruct (Hsh ShaderSource.PBR Hin) as (sh & Hget & _ & _ & Hfrag & Hclass).
  exists sh. split; [exact Hget|]. split; [exact Hclass | exact Hfrag].
Defined.

End Instances.

(** * Further properties *)

Section DrawClosedFormProperties.
Context {GM : GlMatrix}.

(** [draw] computes [draw_result]. *)
Lemma draw_eq
    (draw_mode count offset : Z) (index_buffer : option IndexBuffer)
    (vertex_buffer : VertexBuffer) (mat : option Material) (w : World) :
  draw draw_mode count offset index_buffer vertex_buffer mat w
  = draw_result draw_mode count offset index_buffer vertex_buffer mat w.
Proof.
  destruct w as [[? ? ? ? ? ? [? ? ? ? ? ? ?] ?] ? ? ? ?].
  destruct index_buffer as [[? ?]|], vertex_buffer as [?], mat as [[? ?]|].
  all: unfold draw_result, after_binds, bind_calls, dispatch_call, rebinds, bump,
         count_dispatch.
  all: draw_cases.
  all: cbn [app upd_stats incr_draw_calls add_index_draw_count add_vertex_draw_count];
       rewrite <- ?app_assoc; cbn [app]; rewrite ?app_nil_r.
  all: repeat match goal with H : Some _ = _ |- _ => rewrite <- H end.
  all: reflexivity.
Qed.

End DrawClosedFormProperties.

Section DrawRunProperties.
Context {GM : GlMatrix}.

Lemma draw_gl
    (draw_mode count offset : Z) (index_buffer : option IndexBuffer)
    (vertex_buffer : VertexBuffer) (mat : option Material) (w : World) :
  gl (snd (draw draw_mode count offset index_buffer vertex_buffer mat w))
  = (gl w ++ bind_calls (this w) index_buffer vertex_buffer mat
          ++ option_list (dispatch_call draw_mode count offset index_buffer))%list.
Proof.
  rewrite draw_eq. unfold draw_result.
  destruct (dispatch_call _ _ _ _); cbn [snd gl option_list]; by rewrite ?app_nil_r.
Qed.

Lemma draw_calls_since
    (draw_mode count offset : Z) (index_buffer : option IndexBuffer)
    (vertex_buffer : VertexBuffer) (mat : option Material) (w : World) :
  calls_since w (snd (draw draw_mode count offset index_buffer vertex_buffer mat w))
  = (bind_calls (this w) index_buffer vertex_buffer mat
       ++ option_list (dispatch_call draw_mode count offset index_buffer))%list.
Proof. unfold calls_since. rewrite draw_gl. apply drop_app_length. Qed.

Lemma draw_tracked
    (draw_mode count offset : Z) (index_buffer : option IndexBuffer)
    (vertex_buffer : VertexBuffer) (mat : option Material) (w : World) :
  let r' := this (snd (draw draw_mode count offset index_buffer vertex_buffer mat w)) in
  let b := after_binds (this w) index_buffer vertex_buffer mat in
  current_vertex_buffer r' = current_vertex_buffer b /\
  current_index_buffer r' = current_index_buffer b /\
  current_material r' = current_material b /\
  current_shader r' = current_shader b /\
  shader_bind_count (stats r') = shader_bind_count (stats b) /\
  material_bind_count (stats r') = material_bind_count (stats b) /\
  vertex_buffer_bind_count (stats r') = vertex_buffer_bind_count (stats b) /\
  index_buffer_bind_count (stats r') = index_buffer_bind_count (stats b).
Proof.
  rewrite draw_eq. unfold draw_result.
  destruct (dispatch_call _ _ _ _); cbn [snd this]; [|repeat split].
  destruct index_buffer; repeat split.
Qed.

Lemma is_bind_call_bind_calls (r : Renderer) (index_buffer : option IndexBuffer)
    (vertex_buffer : VertexBuffer) (mat : option Material) :
  filter is_bind_call (bind_calls r index_buffer vertex_buffer mat)
  = bind_calls r index_buffer vertex_buffer mat.
Proof.
  unfold bind_calls.
  destruct mat, index_buffer; repeat (destruct (rebinds _ _)); reflexivity.
Qed.

Lemma is_draw_command_bind_calls (r : Renderer) (index_buffer : option IndexBuffer)
    (vertex_buffer : VertexBuffer) (mat : option Material) :
  filter is_draw_command (bind_calls r index_buffer vertex_buffer mat) = [].
Proof.
  unfold bind_calls.
  destruct mat, index_buffer; repeat (destruct (rebinds _ _)); reflexivity.
Qed.

Lemma dispatch_call_is_draw_command (draw_mode count offset : Z)
    (index_buffer : option IndexBuffer) :
  filter is_draw_command (option_list (dispatch_call draw_mode count offset index_buffer))
  = option_list (dispatch_call draw_mode count offset index_buffer) /\
  filter is_bind_call (option_list (dispatch_call draw_mode count offset index_buffer))
  = [].
Proof.
  unfold dispatch_call. destruct index_buffer; repeat case_bool_decide; split; reflexivity.
Qed.

End DrawRunProperties.

Section DrawSequences.
Context {GM : GlMatrix}.

Lemma bound_to_after_draw
    (draw_mode count offset : Z) (index_buffer : option IndexBuffer)
    (vertex_buffer : VertexBuffer) (mat : option Material) (w : World) :
  bound_to (this (snd (draw draw_mode count offset index_buffer vertex_buffer mat w)))
           index_buffer vertex_buffer mat.
Proof.
  destruct (draw_tracked draw_mode count offset index_buffer vertex_buffer mat w)
    as (Hv & Hi & Hm & Hs & _).
  unfold bound_to. rewrite Hv, Hi, Hm, Hs.
  destruct index_buffer, mat; repeat split.
Qed.

Lemma bind_calls_bound (r : Renderer) (index_buffer : option IndexBuffer)
    (vertex_buffer : VertexBuffer) (mat : option Material) :
  bound_to r index_buffer vertex_buffer mat ->
  bind_calls r index_buffer vertex_buffer mat = [] /\
  after_binds r index_buffer vertex_buffer mat = r.
Proof.
  destruct r as [cvb cib cm cs pf pm [n1 n2 n3 n4 n5 n6 n7] vp].
  unfold bound_to, bind_calls, after_binds, rebinds, bump.
  cbn [current_vertex_buffer current_index_buffer current_material current_shader stats
       shader_bind_count material_bind_count vertex_buffer_bind_count
       index_buffer_bind_count index_draw_count vertex_draw_count draw_calls
       uboPerFrameBlock uboPerModelBlock viewport].
  intros (-> & Hi & Hm).
  destruct index_buffer as [ib|]; [rewrite Hi|];
    (destruct mat as [m|]; [destruct Hm as [-> ->]|]);
    rewrite ?bool_decide_eq_false_2 by (intros H; by apply H).
  all: split; reflexivity.
Qed.

(** X1. Drawing again with the same arguments binds nothing: whatever
    the state before the first of [k + 1] equal [draw] calls, the [k]
    later ones issue only the draw command of the first (none at all
    when the first threw), and leave the tracked objects and the four
    bind counters as the first call left them. *)
Theorem draw_again_issues_no_binding (k : nat)
    (draw_mode count offset : Z) (index_buffer : option IndexBuffer)
    (vertex_buffer : VertexBuffer) (mat : option Material) (w : World) :
  let w1 := snd (draw draw_mode count offset index_buffer vertex_buffer mat w) in
  let wk := draw_again k draw_mode count offset index_buffer vertex_buffer mat w1 in
  calls_since w1 wk
    = concat (replicate k (filter is_draw_command (calls_since w w1))) /\
  filter is_bind_call (calls_since w1 wk) = [] /\
  current_shader (this wk) = current_shader (this w1) /\
  current_material (this wk) = current_material (this w1) /\
  current_vertex_buffer (this wk) = current_vertex_buffer (this w1) /\
  current_index_buffer (this wk) = current_index_buffer (this w1) /\
  shader_bind_count (stats (this wk)) = shader_bind_count (stats (this w1)) /\
  material_bind_count (stats (this wk)) = material_bind_count (stats (this w1)) /\
  vertex_buffer_bind_count (stats (this wk))
    = vertex_buffer_bind_count (stats (this w1)) /\
  index_buffer_bind_count (stats (this wk))
    = index_buffer_bind_count (stats (this w1)).
Proof.
  intros w1 wk.
  set (d := option_list (dispatch_call draw_mode count offset index_buffer)).
  assert (Hfirst : filter is_draw_command (calls_since w w1) = d).
  { subst w1. rewrite draw_calls_since, filter_app, is_draw_command_bind_calls.
    apply dispatch_call_is_draw_command. }
  rewrite Hfirst.
  assert (Hb : bound_to (this w1) index_buffer vertex_buffer mat)
    by apply bound_to_after_draw.
  assert (Hk : gl wk = (gl w1 ++ concat (replicate k d))%list /\
               current_shader (this wk) = current_shader (this w1) /\
               current_material (this wk) = current_material (this w1) /\
               current_vertex_buffer (this wk) = current_vertex_buffer (this w1) /\
               current_index_buffer (this wk) = current_index_buffer (this w1) /\
               shader_bind_count (stats (this wk)) = shader_bind_count (stats (this w1)) /\
               material_bind_count (stats (this wk))
                 = material_bind_count (stats (this w1)) /\
               vertex_buffer_bind_count (stats (this wk))
                 = vertex_buffer_bind_count (stats (this w1)) /\
               index_buffer_bind_count (stats (this wk))
                 = index_buffer_bind_count (stats (this w1))).
  { subst wk. clearbody w1. clear Hfirst. revert w1 Hb.
    induction k as [|k IH]; intros w1 Hb.
    - cbn. rewrite app_nil_r. repeat split.
    - cbn [draw_again replicate concat].
      pose proof (bound_to_after_draw draw_mode count offset index_buffer
                    vertex_buffer mat w1) as Hb'.
      specialize (IH _ Hb') as (Hgl & Hrest).
      pose proof (draw_gl draw_mode count offset index_buffer vertex_buffer mat w1)
        as Hgl1.
      destruct (draw_tracked draw_mode count offset index_buffer vertex_buffer mat w1)
        as (H1 & H2 & H3 & H4 & H5 & H6 & H7 & H8).
      destruct (bind_calls_bound _ _ _ _ Hb) as [Hnil Hsame].
      rewrite Hnil in Hgl1. rewrite Hsame in H1, H2, H3, H4, H5, H6, H7, H8.
      rewrite Hgl, Hgl1. cbn [app]. fold d. rewrite <- app_assoc.
      split; [reflexivity|].
      rewrite <- H1, <- H2, <- H3, <- H4, <- H5, <- H6, <- H7, <- H8. exact Hrest. }
  destruct Hk as (Hgl & Hrest).
  assert (Hcalls : calls_since w1 wk = concat (replicate k d)).
  { unfold calls_since. rewrite Hgl. apply drop_app_length. }
  split; [exact Hcalls|]. split; [|exact Hrest].
  rewrite Hcalls. clear. induction k as [|k IH]; [reflexivity|].
  cbn [replicate concat]. rewrite filter_app, IH, app_nil_r.
  apply dispatch_call_is_draw_command.
Qed.

(** X2. A [draw] call touches nothing but the binding cache, the
    statistics and the log: the uniform blocks, the viewport, the
    statics, the scratch matrices stay, the log is only extended, and
    the calls it adds are its binding calls followed by at most one
    draw command. *)
Theorem draw_touches_only_cache_and_stats
    (draw_mode count offset : Z) (index_buffer : option IndexBuffer)
    (vertex_buffer : VertexBuffer) (mat : option Material) (w : World) :
  let w' := snd (draw draw_mode count offset index_buffer vertex_buffer mat w) in
  uboPerFrameBlock (this w') = uboPerFrameBlock (this w) /\
  uboPerModelBlock (this w') = uboPerModelBlock (this w) /\
  viewport (this w') = viewport (this w) /\
  statics w' = statics w /\
  scratch w' = scratch w /\
  gl w' = (gl w ++ calls_since w w')%list /\
  (exists binds draws,
     calls_since w w' = (binds ++ draws)%list /\
     filter is_bind_call binds = binds /\
     filter is_draw_command draws = draws /\
     (length draws <= 1)%nat) /\
  forall c, c ∈ calls_since w w' -> is_bind_call c = true \/ is_draw_command c = true.
Proof.
  intros w'. subst w'. rewrite draw_calls_since, draw_gl.
  rewrite draw_eq. unfold draw_result.
  split; [destruct (dispatch_call _ _ _ _), index_buffer; reflexivity|].
  split; [destruct (dispatch_call _ _ _ _), index_buffer; reflexivity|].
  split; [destruct (dispatch_call _ _ _ _), index_buffer; reflexivity|].
  split; [destruct (dispatch_call _ _ _ _); reflexivity|].
  split; [destruct (dispatch_call _ _ _ _); reflexivity|].
  split; [reflexivity|].
  split.
  { eexists _, _. split; [reflexivity|]. split; [apply is_bind_call_bind_calls|].
    split; [apply dispatch_call_is_draw_command|].
    destruct (dispatch_call _ _ _ _); cbn; lia. }
  intros c [Hc|Hc]%elem_of_app.
  - left. rewrite <- is_bind_call_bind_calls in Hc.
    apply list_elem_of_filter in Hc as [Hc _]. by destruct (is_bind_call c).
  - right. destruct (dispatch_call_is_draw_command draw_mode count offset index_buffer)
      as [Hd _]. rewrite <- Hd in Hc.
    apply list_elem_of_filter in Hc as [Hc _]. by destruct (is_draw_command c).
Qed.

End DrawSequences.

Section CacheClearing.
Context {GM : GlMatrix}.

Lemma bind_calls_cleared (r : Renderer) (index_buffer : option IndexBuffer)
    (vertex_buffer : VertexBuffer) (mat : option Material) :
  (mat <> None -> current_shader r = None /\ current_material r = None) ->
  bind_calls r index_buffer vertex_buffer mat
  = (match mat with
     | Some m => [ShaderUse (shader m); MaterialActivate (material_ref m)]
     | None => []
     end
     ++ (if bool_decide (Some (vertex_buffer_ref vertex_buffer) ≠ current_vertex_buffer r)
         then [VertexBufferBind (vertex_buffer_ref vertex_buffer)] else [])
     ++ match index_buffer with
        | Some ib =>
            if bool_decide (Some (index_buffer_ref ib) ≠ current_index_buffer r)
            then [IndexBufferBind (index_buffer_ref ib)] else []
        | None => []
        end)%list.
Proof.
  unfold bind_calls, rebinds. destruct mat as [m|]; [|reflexivity].
  intros H. destruct H as [-> ->]; [discriminate|].
  rewrite !bool_decide_eq_true_2 by discriminate. reflexivity.
Qed.

(** X3. [resetSaveBindings] forgets all four tracked objects without
    touching the statistics or the log, so the next [draw] binds every
    object it is given, in the order shader, material, vertex buffer,
    index buffer, before its draw command, and each bind counter of an
    object passed grows by one. *)
Theorem resetSaveBindings_forces_rebinding
    (draw_mode count offset : Z) (index_buffer : option IndexBuffer)
    (vertex_buffer : VertexBuffer) (mat : option Material) (w : World) :
  let w1 := snd (resetSaveBindings w) in
  let w2 := snd (draw draw_mode count offset index_buffer vertex_buffer mat w1) in
  stats (this w1) = stats (this w) /\
  gl w1 = gl w /\
  filter is_bind_call (calls_since w1 w2)
    = (match mat with
       | Some m => [ShaderUse (shader m); MaterialActivate (material_ref m)]
       | None => []
       end
       ++ [VertexBufferBind (vertex_buffer_ref vertex_buffer)]
       ++ match index_buffer with
          | Some ib => [IndexBufferBind (index_buffer_ref ib)]
          | None => []
          end)%list /\
  (exists binds draws,
     calls_since w1 w2 = (binds ++ draws)%list /\
     filter is_bind_call binds = binds /\ filter is_draw_command draws = draws) /\
  vertex_buffer_bind_count (stats (this w2))
    = vertex_buffer_bind_count (stats (this w)) + 1 /\
  index_buffer_bind_count (stats (this w2))
    = index_buffer_bind_count (stats (this w))
      + match index_buffer with Some _ => 1 | None => 0 end /\
  shader_bind_count (stats (this w2))
    = shader_bind_count (stats (this w)) + match mat with Some _ => 1 | None => 0 end /\
  material_bind_count (stats (this w2))
    = material_bind_count (stats (this w)) + match mat with Some _ => 1 | None => 0 end.
Proof.
  intros w1 w2.
  assert (Hw1 : this w1 = set_current_shader None (set_current_material None
                  (set_current_index_buffer None
                     (set_current_vertex_buffer None (this w)))) /\ gl w1 = gl w).
  { subst w1. destruct w as [[cvb cib cm cs pf pm st vp] sta scr log nr].
    split; reflexivity. }
  destruct Hw1 as [Hthis Hgl].
  split; [rewrite Hthis; by destruct (this w)|]. split; [exact Hgl|].
  subst w2. rewrite draw_calls_since.
  destruct (draw_tracked draw_mode count offset index_buffer vertex_buffer mat w1)
    as (_ & _ & _ & _ & Hs & Hm & Hv & Hi).
  rewrite Hs, Hm, Hv, Hi, Hthis. clear Hs Hm Hv Hi.
  destruct (this w) as [cvb cib cm cs pf pm [n1 n2 n3 n4 n5 n6 n7] vp].
  split; [|split; [|split; [|split]]].
  - rewrite filter_app, is_bind_call_bind_calls.
    rewrite (proj2 (dispatch_call_is_draw_command _ _ _ _)), app_nil_r.
    rewrite bind_calls_cleared by (intros _; split; reflexivity).
    cbn. destruct index_buffer; reflexivity.
  - eexists _, _. split; [reflexivity|]. split.
    + apply is_bind_call_bind_calls.
    + apply dispatch_call_is_draw_command.
  - reflexivity.
  - destruct index_buffer; cbn; [reflexivity|lia].
  - split; destruct mat; cbn; first [reflexivity|lia].
Qed.

(** X4. A frame starts with an empty shader and material cache but a
    warm buffer cache: the first [draw] with a material after
    [setPerFrameUniforms] uses its shader and activates it even when
    both were current before the frame call, while the vertex and index
    buffers are bound only when they differ from the ones tracked
    before the frame call. *)
Theorem first_draw_of_frame_rebinds_shader_and_material
    (view proj : mat4) (draw_mode count offset : Z) (index_buffer : option IndexBuffer)
    (vertex_buffer : VertexBuffer) (m : Material) (w : World) :
  let w1 := snd (setPerFrameUniforms view proj w) in
  let w2 := snd (draw draw_mode count offset index_buffer vertex_buffer (Some m) w1) in
  filter is_bind_call (calls_since w1 w2)
    = ([ShaderUse (shader m); MaterialActivate (material_ref m)]
       ++ (if bool_decide (Some (vertex_buffer_ref vertex_buffer)
                           ≠ current_vertex_buffer (this w))
           then [VertexBufferBind (vertex_buffer_ref vertex_buffer)] else [])
       ++ match index_buffer with
          | Some ib =>
              if bool_decide (Some (index_buffer_ref ib) ≠ current_index_buffer (this w))
              then [IndexBufferBind (index_buffer_ref ib)] else []
          | None => []
          end)%list /\
  shader_bind_count (stats (this w2)) = 1 /\
  material_bind_count (stats (this w2)) = 1.
Proof.
  intros w1 w2.
  assert (Hw1 : current_shader (this w1) = None /\ current_material (this w1) = None /\
                current_vertex_buffer (this w1) = current_vertex_buffer (this w) /\
                current_index_buffer (this w1) = current_index_buffer (this w) /\
                stats (this w1) = RendererStats_new).
  { subst w1. destruct w as [[cvb cib cm cs pf pm st vp] sta scr log nr].
    step_uniforms. destruct (mat4_invert view); repeat split. }
  destruct Hw1 as (Hs & Hm & Hv & Hi & Hst).
  subst w2. rewrite draw_calls_since.
  destruct (draw_tracked draw_mode count offset index_buffer vertex_buffer (Some m) w1)
    as (_ & _ & _ & _ & Hsc & Hmc & _).
  rewrite Hsc, Hmc. cbn [after_binds stats shader_bind_count material_bind_count].
  rewrite Hs, Hm, Hst. split; [|split; reflexivity].
  rewrite filter_app, is_bind_call_bind_calls.
  rewrite (proj2 (dispatch_call_is_draw_command _ _ _ _)), app_nil_r.
  rewrite bind_calls_cleared by (intros _; split; assumption).
  rewrite Hv, Hi. reflexivity.
Qed.

End CacheClearing.

Section RunInvariants.
Context {GM : GlMatrix}.

Lemma plain_calls_count_nothing (new : list Call) :
  Forall (fun c => is_plain c = true) new ->
  omap shader_used new = [] /\ omap material_activated new = [] /\
  omap vertex_buffer_bound new = [] /\ omap index_buffer_bound new = [] /\
  filter is_draw_command new = [] /\ indices_drawn new = 0 /\ vertices_drawn new = 0.
Proof.
  induction 1 as [|c new Hc _ IH]; [repeat split|].
  destruct IH as (H1 & H2 & H3 & H4 & H5 & H6 & H7).
  destruct c; try discriminate Hc; cbn; rewrite ?H1, ?H2, ?H3, ?H4, ?H6, ?H7;
    repeat split; exact H5.
Qed.

(** What a method other than [draw] does to the log, the cache and the
    statistics. *)
Lemma run_plain (c : Method) (w : World) :
  (forall dm ct off ib vb mat, c <> Call_draw dm ct off ib vb mat) ->
  let w' := snd (run c w) in
  exists new,
    gl w' = (gl w ++ new)%list /\
    Forall (fun c => is_plain c = true) new /\
    (current_shader (this w') = current_shader (this w)
     \/ current_shader (this w') = None) /\
    (current_material (this w') = current_material (this w)
     \/ current_material (this w') = None) /\
    (current_vertex_buffer (this w') = current_vertex_buffer (this w)
     \/ current_vertex_buffer (this w') = None) /\
    (current_index_buffer (this w') = current_index_buffer (this w)
     \/ current_index_buffer (this w') = None) /\
    stats (this w') = if is_reset c then RendererStats_new else stats (this w).
Proof.
  intros Hc.
  destruct w as [[cvb cib cm cs pf pm st vp] sta [t mv nv mvp] log nr].
  destruct c as [view proj|model_matrix view_matrix proj_matrix|x y wd h| | |
                 dm ct off ib vb mat| ]; cbn [run is_reset].
  - step_uniforms. destruct (mat4_invert view);
      (eexists [_]; split; [reflexivity|]; split; [by repeat constructor|]; auto 10).
  - step_uniforms.
    lazy beta iota zeta delta [set_modelview_matrix modelview_matrix normalview_matrix].
    destruct (mat3_normalFromMat4 (mat4_mul view_matrix model_matrix));
      [destruct nv|].
    + eexists [_]; split; [reflexivity|]; split; [by repeat constructor|]; auto 10.
    + exists []; split; [by rewrite app_nil_r|]; split; [constructor|]; auto 10.
    + exists []; split; [by rewrite app_nil_r|]; split; [constructor|]; auto 10.
  - eexists [_]; split; [reflexivity|]; split; [by repeat constructor|]; auto 10.
  - eexists [_]; split; [reflexivity|]; split; [by repeat constructor|]; auto 10.
  - exists []; split; [by rewrite app_nil_r|]; split; [constructor|]; auto 10.
  - by destruct (Hc dm ct off ib vb mat).
  - exists []; split; [by rewrite app_nil_r|]; split; [constructor|]; auto 10.
Qed.

Lemma accounts_refl (st : RendererStats) : accounts st st [].
Proof. unfold accounts, calls_of, draw_commands; cbn. repeat split; lia. Qed.

Lemma accounts_app (st1 st2 st3 : RendererStats) (a b : list Call) :
  accounts st1 st2 a -> accounts st2 st3 b -> accounts st1 st3 (a ++ b).
Proof.
  unfold accounts, calls_of, draw_commands.
  intros (A1 & A2 & A3 & A4 & A5 & A6 & A7) (B1 & B2 & B3 & B4 & B5 & B6 & B7).
  rewrite !omap_app, filter_app, !length_app, !Nat2Z.inj_add.
  assert (Hi : indices_drawn (a ++ b) = indices_drawn a + indices_drawn b).
  { clear. induction a as [|[] a IH]; cbn; lia. }
  assert (Hv : vertices_drawn (a ++ b) = vertices_drawn a + vertices_drawn b).
  { clear. induction a as [|[] a IH]; cbn; lia. }
  rewrite Hi, Hv. repeat split; lia.
Qed.

Lemma accounts_draw
    (draw_mode count offset : Z) (index_buffer : option IndexBuffer)
    (vertex_buffer : VertexBuffer) (mat : option Material) (w : World) :
  let w' := snd (draw draw_mode count offset index_buffer vertex_buffer mat w) in
  accounts (stats (this w)) (stats (this w'))
           (bind_calls (this w) index_buffer vertex_buffer mat
            ++ option_list (dispatch_call draw_mode count offset index_buffer)).
Proof.
  intros w'; subst w'. rewrite draw_eq.
  assert (Hdc : draw_commands
                  (bind_calls (this w) index_buffer vertex_buffer mat
                   ++ option_list (dispatch_call draw_mode count offset index_buffer))
                = Z.of_nat (length (option_list
                             (dispatch_call draw_mode count offset index_buffer)))).
  { unfold draw_commands. rewrite filter_app, is_draw_command_bind_calls.
    by rewrite (proj1 (dispatch_call_is_draw_command _ _ _ _)). }
  unfold accounts. rewrite Hdc. clear Hdc.
  destruct w as [[cvb cib cm cs pf pm [n1 n2 n3 n4 n5 n6 n7] vp] sta scr log nr].
  unfold draw_result, after_binds, bind_calls, dispatch_call, count_dispatch, bump,
    calls_of.
  cbn [this stats current_shader current_material current_vertex_buffer
       current_index_buffer shader_bind_count material_bind_count
       vertex_buffer_bind_count index_buffer_bind_count index_draw_count
       vertex_draw_count draw_calls].
  destruct mat as [m|], index_buffer as [ib|];
    repeat (destruct (rebinds _ _)); repeat case_bool_decide;
    cbn; repeat split; lia.
Qed.

(** X5. The statistics count the calls.  Over any sequence of method
    calls without [resetStats] and [setPerFrameUniforms] (also when
    some of them throw and are caught) each counter grows by what the
    calls issued in that time amount to: the bind counters by the number
    of [use], [activate], [bindBuffers] and [bind] calls, [draw_calls]
    by the number of draw commands, [index_draw_count] and
    [vertex_draw_count] by the counts passed to [drawElements] and
    [drawArrays].  Right after a reset the counters are these numbers. *)
Theorem stats_count_the_calls (cs : list Method) (w : World) :
  forallb (fun c => negb (is_reset c)) cs = true ->
  accounts (stats (this w)) (stats (this (run_all cs w)))
           (calls_since w (run_all cs w)) /\
  let w0 := snd (resetStats w) in
  let new := calls_since w0 (run_all cs w0) in
  stats (this (run_all cs w0))
  = {| shader_bind_count := calls_of shader_used new;
       material_bind_count := calls_of material_activated new;
       vertex_buffer_bind_count := calls_of vertex_buffer_bound new;
       index_buffer_bind_count := calls_of index_buffer_bound new;
       index_draw_count := indices_drawn new;
       vertex_draw_count := vertices_drawn new;
       draw_calls := draw_commands new |}.
Proof.
  intros Hcs.
  assert (Hgen : forall w, exists new,
             gl (run_all cs w) = (gl w ++ new)%list /\
             accounts (stats (this w)) (stats (this (run_all cs w))) new).
  { clear w. induction cs as [|c cs IH]; intros w.
    - exists []. split; [by rewrite app_nil_r | apply accounts_refl].
    - cbn [forallb] in Hcs. apply andb_prop in Hcs as [Hc Hcs].
      cbn [run_all]. destruct (IH Hcs (snd (run c w))) as (new2 & Hgl2 & Hacc2).
      assert (Hstep : exists new1, gl (snd (run c w)) = (gl w ++ new1)%list /\
                        accounts (stats (this w)) (stats (this (snd (run c w)))) new1).
      { destruct c as [view proj|model_matrix view_matrix proj_matrix|x y wd h| | |
                       dm ct off ib vb mat| ] eqn:Ec; try discriminate Hc.
        5: { cbn [run]. eexists. split; [apply draw_gl | apply accounts_draw]. }
        all: rewrite <- Ec; destruct (run_plain c w) as (new & Hgl & Hplain & _ & _ & _ & _ & Hst);
          [subst c; discriminate|].
        all: exists new; split; [exact Hgl|]; rewrite Hst; subst c; cbn [is_reset].
        all: destruct (plain_calls_count_nothing new Hplain)
               as (H1 & H2 & H3 & H4 & H5 & H6 & H7).
        all: unfold accounts, calls_of, draw_commands;
             rewrite H1, H2, H3, H4, H5, H6, H7; cbn; repeat split; lia. }
      destruct Hstep as (new1 & Hgl1 & Hacc1).
      exists (new1 ++ new2)%list. split.
      + rewrite Hgl2, Hgl1. by rewrite app_assoc.
      + eapply accounts_app; eassumption. }
  split.
  - destruct (Hgen w) as (new & Hgl & Hacc).
    unfold calls_since. rewrite Hgl, drop_app_length. exact Hacc.
  - intros w0 new. destruct (Hgen w0) as (new' & Hgl & Hacc).
    assert (new = new') as -> by (subst new; unfold calls_since; by rewrite Hgl, drop_app_length).
    assert (Hst0 : stats (this w0) = RendererStats_new).
    { subst w0. by destruct w as [[cvb cib cm cs0 pf pm st vp] sta scr log nr]. }
    rewrite Hst0 in Hacc. destruct Hacc as (A1 & A2 & A3 & A4 & A5 & A6 & A7).
    destruct (stats (this (run_all cs w0))) as [n1 n2 n3 n4 n5 n6 n7].
    unfold RendererStats_new in *.
    cbn [shader_bind_count material_bind_count vertex_buffer_bind_count
         index_buffer_bind_count index_draw_count vertex_draw_count draw_calls] in *.
    f_equal; lia.
Qed.

End RunInvariants.

Section Coherence.
Context {GM : GlMatrix}.

Lemma constructor_clears_cache (w : World) :
  let r := this (snd (constructor w)) in
  current_shader r = None /\ current_material r = None /\
  current_vertex_buffer r = None /\ current_index_buffer r = None /\
  viewport r = ViewportDimensions_new /\ stats r = RendererStats_new.
Proof.
  destruct w as [[cvb cib cm cs pf pm st vp] [et ect blt shs] scr log nr].
  intros r. remember (constructor _) as res eqn:Hres in r.
  lazy beta iota zeta delta -[app drop length] in Hres.
  subst r res. repeat split.
Qed.

Lemma rebinds_false (a : ref) (cur : option ref) :
  rebinds a cur = false -> cur = Some a.
Proof. unfold rebinds. intros H%bool_decide_eq_false. by destruct (decide (Some a = cur)). Qed.

(** The binding calls of one kind among the calls of a [draw]. *)
Lemma omap_draw_calls (r : Renderer) (draw_mode count offset : Z)
    (index_buffer : option IndexBuffer) (vertex_buffer : VertexBuffer)
    (mat : option Material) :
  let new := (bind_calls r index_buffer vertex_buffer mat
              ++ option_list (dispatch_call draw_mode count offset index_buffer))%list in
  omap shader_used new
    = match mat with
      | Some m => if rebinds (shader m) (current_shader r) then [shader m] else []
      | None => []
      end /\
  omap material_activated new
    = match mat with
      | Some m =>
          if rebinds (material_ref m) (current_material r) then [material_ref m] else []
      | None => []
      end /\
  omap vertex_buffer_bound new
    = (if rebinds (vertex_buffer_ref vertex_buffer) (current_vertex_buffer r)
       then [vertex_buffer_ref vertex_buffer] else []) /\
  omap index_buffer_bound new
    = match index_buffer with
      | Some ib =>
          if rebinds (index_buffer_ref ib) (current_index_buffer r)
          then [index_buffer_ref ib] else []
      | None => []
      end.
Proof.
  unfold bind_calls, dispatch_call.
  destruct mat, index_buffer; repeat (destruct (rebinds _ _));
    repeat case_bool_decide; repeat split.
Qed.

Lemma last_app_cases {A} (l : list A) (a : A) (b : bool) :
  last (l ++ (if b then [a] else [])) = if b then Some a else last l.
Proof. destruct b; [apply last_snoc | by rewrite app_nil_r]. Qed.

Lemma coherent_run (c : Method) (w : World) :
  coherent w -> coherent (snd (run c w)).
Proof.
  intros (Hs & Hm & Hv & Hi).
  destruct c as [view proj|model_matrix view_matrix proj_matrix|x y wd h| | |
                 dm ct off ib vb mat| ] eqn:Ec.
  6: { cbn [run]. unfold coherent. rewrite draw_gl, !(omap_app _ (gl w)).
       destruct (omap_draw_calls (this w) dm ct off ib vb mat) as (-> & -> & -> & ->).
       destruct (draw_tracked dm ct off ib vb mat w) as (-> & -> & -> & -> & _).
       cbn [after_binds current_shader current_material current_vertex_buffer
            current_index_buffer].
       repeat split; intros v.
       - destruct mat as [m|]; [|rewrite app_nil_r; apply Hs].
         rewrite last_app_cases. intros [= <-].
         destruct (rebinds _ _) eqn:E; [reflexivity|]. apply Hs, rebinds_false, E.
       - destruct mat as [m|]; [|rewrite app_nil_r; apply Hm].
         rewrite last_app_cases. intros [= <-].
         destruct (rebinds _ _) eqn:E; [reflexivity|]. apply Hm, rebinds_false, E.
       - rewrite last_app_cases. intros [= <-].
         destruct (rebinds _ _) eqn:E; [reflexivity|]. apply Hv, rebinds_false, E.
       - destruct ib as [ib|]; [|rewrite app_nil_r; apply Hi].
         rewrite last_app_cases. intros [= <-].
         destruct (rebinds _ _) eqn:E; [reflexivity|]. apply Hi, rebinds_false, E. }
  all: rewrite <- Ec; destruct (run_plain c w)
         as (new & Hgl & Hplain & Hcs & Hcm & Hcv & Hci & _); [subst c; discriminate|].
  all: destruct (plain_calls_count_nothing new Hplain) as (H1 & H2 & H3 & H4 & _).
  all: unfold coherent; rewrite Hgl, !omap_app, H1, H2, H3, H4, !app_nil_r.
  all: repeat split; intros v Hcur.
  all: first [ destruct Hcs as [E|E]; rewrite E in Hcur; [by apply Hs | discriminate]
             | destruct Hcm as [E|E]; rewrite E in Hcur; [by apply Hm | discriminate]
             | destruct Hcv as [E|E]; rewrite E in Hcur; [by apply Hv | discriminate]
             | destruct Hci as [E|E]; rewrite E in Hcur; [by apply Hi | discriminate] ].
Qed.

(** X6. The binding cache never disagrees with the calls issued.  After
    the constructor and any sequence of method calls (throwing ones
    included), a tracked shader, material, vertex buffer or index buffer
    is the object of the most recent [use], [activate], [bindBuffers],
    [bind] call in the log; so a binding that [draw] skips repeats the
    latest one. *)
Theorem cache_agrees_with_log (cs : list Method) (w : World) :
  coherent (run_all cs (snd (constructor w))).
Proof.
  assert (Hinit : coherent (snd (constructor w))).
  { destruct (constructor_clears_cache w) as (Hs & Hm & Hv & Hi & _).
    unfold coherent. rewrite Hs, Hm, Hv, Hi. repeat split; discriminate. }
  revert Hinit. generalize (snd (constructor w)). clear w.
  induction cs as [|c cs IH]; intros w Hw; [exact Hw|].
  cbn [run_all]. apply IH, coherent_run, Hw.
Qed.

End Coherence.

Section FrameRules.
Context {GM : GlMatrix}.

Lemma keeps_ret {A B} (f : World -> B) (a : A) : keeps f (mret a).
Proof. intros w; reflexivity. Qed.

Lemma keeps_throw {A B} (f : World -> B) (e : exn) : keeps f (@throw _ A e).
Proof. intros w; reflexivity. Qed.

Lemma keeps_bind {A B C} (f : World -> C) (m : M A) (k : A -> M B) :
  keeps f m -> (forall a, keeps f (k a)) -> keeps f (m ≫= k).
Proof.
  intros Hm Hk w. unfold mbind, M_bind. specialize (Hm w).
  destruct (m w) as [[a|e] w1]; cbn [snd] in *; [rewrite Hk|]; exact Hm.
Qed.

Lemma keeps_get_this {B} (f : World -> B) : keeps f get_this.
Proof. intros w; reflexivity. Qed.

Lemma keeps_get_scratch {B} (f : World -> B) : keeps f get_scratch.
Proof. intros w; reflexivity. Qed.

Lemma keeps_get_statics {B} (f : World -> B) : keeps f get_statics.
Proof. intros w; reflexivity. Qed.

End FrameRules.

(** Decomposes a method along its binds and branches; the primitive
    steps are closed by computation. *)
Ltac keeps_tac :=
  repeat lazymatch goal with
    | |- keeps _ (mbind _ _) => apply keeps_bind; [|intros ?]
    | |- keeps _ (mret _) => apply keeps_ret
    | |- keeps _ (throw _) => apply keeps_throw
    | |- keeps _ get_this => apply keeps_get_this
    | |- keeps _ get_scratch => apply keeps_get_scratch
    | |- keeps _ get_statics => apply keeps_get_statics
    | |- keeps _ (match ?x with _ => _ end) => destruct x
    | |- keeps _ (call _) =>
        let w := fresh "w" in
        intros w; destruct w as [[? ? ? ? ? ? ? ?] [? ? ? ?] [? ? ? ?] ? ?]; reflexivity
    | |- keeps _ (modify_this _) =>
        let w := fresh "w" in
        intros w; destruct w as [[? ? ? ? ? ? ? ?] [? ? ? ?] [? ? ? ?] ? ?]; reflexivity
    | |- keeps _ (modify_scratch _) =>
        let w := fresh "w" in
        intros w; destruct w as [[? ? ? ? ? ? ? ?] [? ? ? ?] [? ? ? ?] ? ?]; reflexivity
    | |- keeps _ (modify_statics _) =>
        let w := fresh "w" in
        intros w; destruct w as [[? ? ? ? ? ? ? ?] [? ? ? ?] [? ? ? ?] ? ?]; reflexivity
    end.

Ltac unfold_methods :=
  unfold setPerFrameUniforms, setPerModelUniforms, setViewport, resetViewport,
    resetSaveBindings, draw, resetStats, invert_into_temp, mul_into_temp,
    mul_into_modelview, mul_into_mvp, normalFromMat4_out, uboPerFrameBlock_update,
    uboPerModelBlock_update.

Section FrameFacts.
Context {GM : GlMatrix}.


Lemma run_keeps_next_ref (c : Method) : keeps next_ref (run c).
Proof. destruct c; cbn [run]; unfold_methods; keeps_tac. Qed.


End FrameFacts.

Section ScratchProperties.
Context {GM : GlMatrix}.

Lemma run_keeps_normalview (c : Method) :
  (forall m v p, c <> Call_setPerModelUniforms m v p) ->
  keeps (fun w => normalview_matrix (scratch w)) (run c).
Proof.
  intros Hc. destruct c; cbn [run]; unfold_methods; keeps_tac.
  all: by edestruct Hc.
Qed.

(** The outcome of [setPerModelUniforms] and the scratch normal matrix
    it leaves, by cases. *)
Lemma setPerModelUniforms_cases
    (model_matrix view_matrix proj_matrix : mat4) (w : World) :
  let r := setPerModelUniforms model_matrix view_matrix proj_matrix w in
  match mat3_normalFromMat4 (mat4_mul view_matrix model_matrix),
        normalview_matrix (scratch w) with
  | None, _ =>
      fst r = Throw (Error "Determinant could not be calculated for normalview_matrix")
      /\ normalview_matrix (scratch (snd r)) = None /\ gl (snd r) = gl w
  | Some n, None =>
      fst r = Throw (TypeError "Cannot set properties of null")
      /\ normalview_matrix (scratch (snd r)) = None /\ gl (snd r) = gl w
  | Some n, Some _ =>
      fst r = Ret tt /\ normalview_matrix (scratch (snd r)) = Some n
  end.
Proof.
  destruct w as [[cvb cib cm cs pf pm st vp] sta [t mv nv mvp] log nr].
  step_uniforms.
  lazy beta iota zeta delta [set_modelview_matrix modelview_matrix normalview_matrix].
  destruct (mat3_normalFromMat4 (mat4_mul view_matrix model_matrix)); [destruct nv|];
    repeat split.
Qed.

Lemma constructor_keeps_scratch (w : World) :
  scratch (snd (constructor w)) = scratch w.
Proof.
  destruct w as [[cvb cib cm cs pf pm st vp] [et ect blt shs] scr log nr].
  remember (constructor _) as res eqn:Hres.
  lazy beta iota zeta delta -[app drop length] in Hres.
  subst res. reflexivity.
Qed.

(** X7. The determinant failure is permanent.  Once
    [setPerModelUniforms] has thrown its determinant error, the shared
    normal-matrix buffer is [null] and no method, nor a new [Renderer],
    sets it again: after any further method calls every
    [setPerModelUniforms] call throws (the determinant error for a
    singular model-view matrix, a [TypeError] otherwise) and uploads
    nothing. *)
Theorem determinant_failure_is_permanent
    (model_matrix view_matrix proj_matrix : mat4) (cs : list Method)
    (model_matrix' view_matrix' proj_matrix' : mat4) (w : World) :
  fst (setPerModelUniforms model_matrix view_matrix proj_matrix w)
    = Throw (Error "Determinant could not be calculated for normalview_matrix") ->
  let w1 := run_all cs (snd (setPerModelUniforms model_matrix view_matrix proj_matrix w)) in
  let r := setPerModelUniforms model_matrix' view_matrix' proj_matrix' w1 in
  normalview_matrix (scratch w1) = None /\
  normalview_matrix (scratch (snd (constructor w1))) = None /\
  fst r = match mat3_normalFromMat4 (mat4_mul view_matrix' model_matrix') with
          | None => Throw (Error "Determinant could not be calculated for normalview_matrix")
          | Some _ => Throw (TypeError "Cannot set properties of null")
          end /\
  calls_since w1 (snd r) = [] /\
  normalview_matrix (scratch (snd r)) = None.
Proof.
  intros Hthrow w1 r.
  assert (H0 : normalview_matrix
                 (scratch (snd (setPerModelUniforms model_matrix view_matrix
                                  proj_matrix w))) = None).
  { pose proof (setPerModelUniforms_cases model_matrix view_matrix proj_matrix w) as H.
    cbv zeta in H.
    destruct (mat3_normalFromMat4 (mat4_mul view_matrix model_matrix));
      [destruct (normalview_matrix (scratch w))|];
      destruct H as (Hf & Hn); rewrite Hf in Hthrow; try discriminate Hthrow.
    apply Hn. }
  assert (H1 : normalview_matrix (scratch w1) = None).
  { subst w1. revert H0. generalize (snd (setPerModelUniforms model_matrix view_matrix
                                              proj_matrix w)). clear.
    induction cs as [|c cs IH]; intros w Hw; [exact Hw|].
    cbn [run_all]. apply IH.
    destruct c as [view proj|m v p|x y wd h| | |dm ct off ib vb mat| ] eqn:Ec;
      try (rewrite <- Ec, (run_keeps_normalview c) by (subst c; discriminate);
           exact Hw).
    cbn [run]. pose proof (setPerModelUniforms_cases m v p w) as H. cbv zeta in H.
    rewrite Hw in H. destruct (mat3_normalFromMat4 (mat4_mul v m)); apply H. }
  split; [exact H1|]. split; [by rewrite constructor_keeps_scratch|].
  pose proof (setPerModelUniforms_cases model_matrix' view_matrix' proj_matrix' w1) as H.
  cbv zeta in H. fold r in H. rewrite H1 in H. unfold calls_since.
  destruct (mat3_normalFromMat4 (mat4_mul view_matrix' model_matrix'));
    destruct H as (Hf & Hn & Hgl); rewrite Hgl, drop_all; repeat split; assumption.
Qed.

(** X8. Without a singular model-view matrix there is no failure: from
    a world whose normal-matrix buffer is not [null] (as the module
    initialises it), after any method calls in which every
    [setPerModelUniforms] call had a normal matrix, the buffer is still
    not [null] and [setPerModelUniforms] returns normally for every
    model-view matrix that has a normal matrix. *)
Theorem setPerModelUniforms_keeps_working
    (cs : list Method) (model_matrix view_matrix proj_matrix : mat4) (w : World) :
  normalview_matrix (scratch w) <> None ->
  forallb has_normal_matrix cs = true ->
  mat3_normalFromMat4 (mat4_mul view_matrix model_matrix) <> None ->
  normalview_matrix (scratch (run_all cs w)) <> None /\
  fst (setPerModelUniforms model_matrix view_matrix proj_matrix (run_all cs w)) = Ret tt.
Proof.
  intros Hw Hcs Hn.
  assert (H1 : normalview_matrix (scratch (run_all cs w)) <> None).
  { revert w Hw. induction cs as [|c cs IH]; intros w Hw; [exact Hw|].
    cbn [forallb] in Hcs. apply andb_prop in Hcs as [Hc Hcs].
    cbn [run_all]. apply (IH Hcs).
    destruct c as [view proj|m v p|x y wd h| | |dm ct off ib vb mat| ] eqn:Ec;
      try (rewrite <- Ec, (run_keeps_normalview c) by (subst c; discriminate);
           exact Hw).
    cbn [run]. cbn [has_normal_matrix] in Hc.
    pose proof (setPerModelUniforms_cases m v p w) as H. cbv zeta in H.
    destruct (mat3_normalFromMat4 (mat4_mul v m)); [|discriminate Hc].
    destruct (normalview_matrix (scratch w)); [|done].
    destruct H as [_ ->]. discriminate. }
  split; [exact H1|].
  pose proof (setPerModelUniforms_cases model_matrix view_matrix proj_matrix
                (run_all cs w)) as H. cbv zeta in H.
  destruct (mat3_normalFromMat4 (mat4_mul view_matrix model_matrix)); [|done].
  destruct (normalview_matrix (scratch (run_all cs w))); [|done]. apply H.
Qed.

End ScratchProperties.

Section StaticsProperties.
Context {GM : GlMatrix}.

(** X9. A renderer starts with the zero viewport: after the
    constructor, and any method calls other than [setViewport],
    [resetViewport] issues [gl.viewport(0, 0, 0, 0)]. *)
Theorem resetViewport_before_setViewport (cs : list Method) (w : World) :
  forallb (fun c => negb (is_setViewport c)) cs = true ->
  let w1 := run_all cs (snd (constructor w)) in
  viewport (this w1) = Build_ViewportDimensions 0 0 0 0 /\
  calls_since w1 (snd (resetViewport w1)) = [Viewport 0 0 0 0].
Proof.
  intros Hcs w1.
  assert (Hvp : viewport (this w1) = Build_ViewportDimensions 0 0 0 0).
  { subst w1. rewrite run_all_keeps_viewport by exact Hcs.
    apply constructor_clears_cache. }
  split; [exact Hvp|].
  unfold resetViewport, calls_since, mbind, M_bind, get_this, call.
  cbn [fst snd gl]. rewrite drop_app_length, Hvp. reflexivity.
Qed.



Lemma Map_get_None {V} (k : string) (m : list (string * V)) :
  Map_get k m = None <-> k ∉ map fst m.
Proof.
  induction m as [|[k' v] m IH]; cbn.
  - split; [intros _; apply not_elem_of_nil | done].
  - rewrite not_elem_of_cons. destruct (decide (k' = k)) as [->|Hne].
    + split; [discriminate | intros [H _]; by destruct H].
    + rewrite IH. split; [intros H; split; [congruence|exact H] | intros [_ H]; exact H].
Qed.

Lemma Map_get_elem {V} (k : string) (v : V) (m : list (string * V)) :
  Map_get k m = Some v -> (k, v) ∈ m.
Proof.
  induction m as [|[k' v'] m IH]; [discriminate|].
  cbn. destruct (decide (k' = k)) as [->|].
  - intros [= ->]. apply list_elem_of_here.
  - intros H. apply list_elem_of_further, IH, H.
Qed.

(** X11. [GetShader] knows the names of the table and no other: after
    the constructor it returns a shader exactly for the eight names of
    [ShaderSources], and [undefined] for every other string. *)
Theorem GetShader_defined_on_table_names (key : string) (w : World) :
  let r := fst (GetShader key (snd (constructor w))) in
  (key ∈ map name ShaderSources -> exists sh, r = Ret (Some sh)) /\
  (key ∉ map name ShaderSources -> r = Ret None).
Proof.
  intros r.
  assert (Hkeys : map fst (_Shaders (statics (snd (constructor w))))
                  = map name ShaderSources).
  { destruct w as [[cvb cib cm cs pf pm st vp] [et ect blt shs] scr log nr].
    remember (constructor _) as res eqn:Hres.
    lazy beta iota zeta delta -[app drop length] in Hres.
    subst res. reflexivity. }
  subst r. unfold GetShader, mbind, M_bind, get_statics, mret, M_ret. cbn [fst].
  rewrite <- Hkeys. split; intros H.
  - destruct (Map_get key _) as [sh|] eqn:E; [by exists sh|].
    apply Map_get_None in E. contradiction.
  - apply Map_get_None in H. by rewrite H.
Qed.

Lemma constructor_allocates (w : World) :
  let w' := snd (constructor w) in
  next_ref w' = (next_ref w + 10)%nat /\
  _EMPTY_TEXTURE (statics w') = Some (next_ref w) /\
  _EMPTY_CUBE_TEXTURE (statics w') = Some (S (next_ref w)) /\
  map (fun e => shader_ref (snd e)) (_Shaders (statics w')) = seq (next_ref w + 2) 8.
Proof.
  intros w'. subst w'.
  destruct w as [[cvb cib cm cs pf pm st vp] [et ect blt shs] scr log nr].
  remember (constructor _) as res eqn:Hres.
  lazy beta iota zeta delta -[app drop length] in Hres.
  subst res. cbn [snd next_ref statics _EMPTY_TEXTURE _EMPTY_CUBE_TEXTURE _Shaders].
  replace (nr + 2)%nat with (S (S nr)) by lia.
  split; [lia|]. repeat split.
Qed.

(** X12. Every [new Renderer] starts over: the ten objects it creates
    (two textures, eight shaders) get the next ten references, the
    statics shared by all renderers are replaced by them, and so a
    shader that [GetShader] returned before the call is not the one it
    returns afterwards. *)
Theorem constructor_replaces_the_statics (w : World) :
  let w' := snd (constructor w) in
  next_ref w' = (next_ref w + 10)%nat /\
  _EMPTY_TEXTURE (statics w') = Some (next_ref w) /\
  _EMPTY_CUBE_TEXTURE (statics w') = Some (S (next_ref w)) /\
  map (fun e => shader_ref (snd e)) (_Shaders (statics w'))
    = seq (next_ref w + 2) 8 /\
  (forall key old new,
     fst (GetShader key w) = Ret (Some old) ->
     (shader_ref old < next_ref w)%nat ->
     fst (GetShader key w') = Ret (Some new) ->
     shader_ref new <> shader_ref old).
Proof.
  intros w'. pose proof (constructor_allocates w) as H. cbv zeta in H. fold w' in H.
  destruct H as (Hn & Ht & Hc & Hrefs). clearbody w'.
  split; [exact Hn|]. split; [exact Ht|]. split; [exact Hc|]. split; [exact Hrefs|].
  intros key old new _ Hold Hnew.
  unfold GetShader, mbind, M_bind, get_statics, mret, M_ret in Hnew. cbn [fst] in Hnew.
  assert (Hget : Map_get key (_Shaders (statics w')) = Some new) by congruence.
  clear Hnew. rename Hget into Hnew.
  apply Map_get_elem in Hnew.
  apply list_elem_of_In, (in_map (fun e => shader_ref (snd e))) in Hnew.
  rewrite Hrefs in Hnew. apply in_seq in Hnew. cbn [snd] in Hnew. lia.
Qed.

End StaticsProperties.

Section UniformFrames.
Context {GM : GlMatrix}.

(** X13. The two uniform methods write only their own block, and only
    their four keys in it.  [setPerModelUniforms], whatever its
    outcome, leaves the binding cache, the statistics, the viewport and
    the per-frame block as they were, keeps every other key of the
    per-model block, and adds at most one call to the log, an upload.
    [setPerFrameUniforms] leaves the tracked buffers, the viewport and
    the per-model block as they were, keeps every other key of the
    per-frame block, and adds exactly one call, an upload. *)
Theorem uniform_methods_write_their_own_block
    (a b c : mat4) (w : World) :
  let wm := snd (setPerModelUniforms a b c w) in
  let wf := snd (setPerFrameUniforms a b w) in
  (current_shader (this wm) = current_shader (this w) /\
   current_material (this wm) = current_material (this w) /\
   current_vertex_buffer (this wm) = current_vertex_buffer (this w) /\
   current_index_buffer (this wm) = current_index_buffer (this w) /\
   stats (this wm) = stats (this w) /\
   viewport (this wm) = viewport (this w) /\
   uboPerFrameBlock (this wm) = uboPerFrameBlock (this w) /\
   (forall k, k ∉ per_model_keys ->
      ub_items (uboPerModelBlock (this wm)) !! k
      = ub_items (uboPerModelBlock (this w)) !! k) /\
   (calls_since w wm = [] \/
    calls_since w wm
    = [UniformBufferUpdate (ub_block_name (uboPerModelBlock (this w)))
                           (ub_items (uboPerModelBlock (this wm)))])) /\
  (current_vertex_buffer (this wf) = current_vertex_buffer (this w) /\
   current_index_buffer (this wf) = current_index_buffer (this w) /\
   viewport (this wf) = viewport (this w) /\
   uboPerModelBlock (this wf) = uboPerModelBlock (this w) /\
   (forall k, k ∉ per_frame_keys ->
      ub_items (uboPerFrameBlock (this wf)) !! k
      = ub_items (uboPerFrameBlock (this w)) !! k) /\
   calls_since w wf
   = [UniformBufferUpdate (ub_block_name (uboPerFrameBlock (this w)))
                          (ub_items (uboPerFrameBlock (this wf)))]).
Proof.
  destruct w as [[cvb cib cm cs [fn fl fi fb] [mn ml mi mb] st vp] sta [t mv nv mvp] log nr].
  intros wm wf. split.
  - subst wm wf. step_uniforms.
    lazy beta iota zeta delta [set_modelview_matrix modelview_matrix normalview_matrix].
    destruct (mat3_normalFromMat4 (mat4_mul b a)); [destruct nv|].
    all: lazy beta iota zeta delta
           [this statics scratch gl next_ref fst snd upd_uboPerModelBlock
            set_modelview_matrix modelview_matrix normalview_matrix
            set_normalview_matrix set_mvp_matrix UniformBuffer_set uboPerModelBlock
            uboPerFrameBlock ub_items ub_block_name current_shader current_material
            current_vertex_buffer current_index_buffer stats viewport].
    all: rewrite ?drop_app_length, ?drop_all.
    all: repeat (split; [reflexivity|]).
    all: (split; [|auto]).
    all: intros k Hk; unfold per_model_keys in Hk;
         rewrite !not_elem_of_cons in Hk; destruct Hk as (? & ? & ? & ? & _);
         by rewrite ?lookup_insert_ne.
  - subst wm wf. step_uniforms. destruct (mat4_invert a).
    all: lazy beta iota zeta delta
           [this statics scratch gl next_ref fst snd upd_uboPerFrameBlock upd_stats
            set_current_shader set_current_material nullable_mat4 UniformBuffer_set
            uboPerModelBlock uboPerFrameBlock ub_items ub_block_name
            current_vertex_buffer current_index_buffer viewport].
    all: rewrite drop_app_length.
    all: repeat (split; [reflexivity|]).
    all: (split; [|reflexivity]).
    all: intros k Hk; unfold per_frame_keys in Hk;
         rewrite !not_elem_of_cons in Hk; destruct Hk as (? & ? & ? & ? & _);
         by rewrite ?lookup_insert_ne.
Qed.

(** X14. The shader registered under a name is the one of the last
    table entry with that name: for any table, the loop of the
    constructor ends with [GetShader(s.name)] bound to the shader built
    from the last entry [s] of that name, by its subclass when defined
    and by [Shader] otherwise; earlier entries of the same name were
    constructed and replaced. *)
Theorem create_shaders_last_entry_wins
    (pre post : list ShaderSource) (s : ShaderSource) (w : World) :
  name s ∉ map name post ->
  exists sh,
    Map_get (name s) (_Shaders (statics (snd (create_shaders (pre ++ s :: post) w))))
      = Some sh /\
    vertexSourceCode sh = vert s /\
    fragmentSourceCode sh = frag s /\
    shader_class sh = match subclass s with Some c => c | None => BaseShader end.
Proof.
  intros Hpost. revert w; induction pre as [|s0 pre IH]; intros w.
  - cbn [app].
    destruct (create_shaders_head s post w) as (sh & w1 & -> & Hget & _ & Hv & Hf & Hc).
    exists sh. rewrite create_shaders_keeps_other by exact Hpost. done.
  - cbn [app].
    destruct (create_shaders_head s0 (pre ++ s :: post) w) as (sh0 & w1 & -> & _).
    apply IH.
Qed.

End UniformFrames.

Section ShaderProgramProperties.
Import ShaderProgram.
Context {GM : GlMatrix} {GLD : Driver}.

Lemma initUniforms_loop_get (ID : ref) (infos : list ActiveInfo)
    (us : list (string * Uniform)) (key : string) :
  (key ∉ map info_name infos ->
     Map_get key (initUniforms_loop ID infos us) = Map_get key us) /\
  (key ∈ map info_name infos ->
     exists info, info ∈ infos /\ info_name info = key /\
       Map_get key (initUniforms_loop ID infos us) = Some (Build_Uniform ID info)).
Proof.
  revert us; induction infos as [|info infos IH]; intros us.
  - split; [reflexivity | intros H; by apply elem_of_nil in H].
  - cbn [initUniforms_loop map].
    destruct (IH (Map_set (info_name info) (Build_Uniform ID info) us)) as [IHn IHy].
    destruct (decide (key ∈ map info_name infos)) as [Hin|Hnin].
    + split; [intros H; apply not_elem_of_cons in H as [_ H]; contradiction|].
      intros _. destruct (IHy Hin) as (i & Hi & Hname & Hget).
      exists i. split; [by apply list_elem_of_further|done].
    + split.
      * intros H. apply not_elem_of_cons in H as [Hne _].
        rewrite IHn by exact Hnin. apply Map_get_set_ne. congruence.
      * intros H. apply elem_of_cons in H as [->|H]; [|contradiction].
        exists info. split; [apply list_elem_of_here|]. split; [reflexivity|].
        rewrite IHn by exact Hnin. apply Map_get_set_eq.
Qed.

Lemma getCompiledShader_spec (sourceCode : string) (type : ShaderType) (e : Env) :
  let r := getCompiledShader sourceCode type e in
  let h := next_handle e in
  fst r = h /\
  this (snd r) = this e /\
  modelview_matrix (snd r) = modelview_matrix e /\
  normalview_matrix (snd r) = normalview_matrix e /\
  mvp_matrix (snd r) = mvp_matrix e /\
  next_handle (snd r) = S h /\
  calls (snd r)
  = (calls e
     ++ [CreateShader type h; ShaderSource h sourceCode; CompileShader h]
     ++ (if COMPILE_STATUS h then [] else [Alert (getShaderInfoLog h)]))%list.
Proof.
  destruct e as [s mv nv mvp l h0].
  unfold getCompiledShader, fresh_handle. cbn [next_handle].
  destruct (COMPILE_STATUS h0); cbn; rewrite <- ?app_assoc; repeat split.
Qed.

(** The constructor in closed form. *)
Lemma constructor_spec (vs fs : string) (e : Env) :
  let e1 := constructor vs fs e in
  let h := next_handle e in
  this e1 = {| uniforms := initUniforms_loop (S (S h)) (ACTIVE_UNIFORMS (S (S h))) [];
               attributes := []; ID := S (S h) |} /\
  modelview_matrix e1 = modelview_matrix e /\
  normalview_matrix e1 = normalview_matrix e /\
  mvp_matrix e1 = mvp_matrix e /\
  next_handle e1 = S (S (S h)) /\
  calls e1
  = (calls e
     ++ [CreateShader VERTEX_SHADER h; ShaderSource h vs; CompileShader h]
     ++ (if COMPILE_STATUS h then [] else [Alert (getShaderInfoLog h)])
     ++ [CreateShader FRAGMENT_SHADER (S h); ShaderSource (S h) fs; CompileShader (S h)]
     ++ (if COMPILE_STATUS (S h) then [] else [Alert (getShaderInfoLog (S h))])
     ++ [CreateProgram (S (S h)); AttachShader (S (S h)) h; AttachShader (S (S h)) (S h);
         LinkProgram (S (S h))]
     ++ (if LINK_STATUS (S (S h)) then []
         else [Alert (Some "Could not initialize shaders")]))%list.
Proof.
  intros e1 h. subst e1. unfold constructor.
  pose proof (getCompiledShader_spec vs VERTEX_SHADER e) as H1. cbv zeta in H1.
  destruct (getCompiledShader vs VERTEX_SHADER e) as [v ea]. cbn [fst snd] in H1.
  destruct H1 as (-> & Ht1 & Hm1 & Hn1 & Hp1 & Hh1 & Hc1).
  pose proof (getCompiledShader_spec fs FRAGMENT_SHADER ea) as H2. cbv zeta in H2.
  destruct (getCompiledShader fs FRAGMENT_SHADER ea) as [f eb]. cbn [fst snd] in H2.
  destruct H2 as (-> & Ht2 & Hm2 & Hn2 & Hp2 & Hh2 & Hc2).
  rewrite Hh1 in *. fold h in Hc1, Hh2, Hc2 |- *.
  destruct eb as [s mv nv mvp l hb]. cbn [next_handle calls modelview_matrix
    normalview_matrix mvp_matrix this] in *. subst hb.
  unfold fresh_handle, initUniforms. cbn [next_handle].
  rewrite <- Hm1, <- Hn1, <- Hp1, <- Hm2, <- Hn2, <- Hp2.
  destruct (LINK_STATUS (S (S h))); cbn; subst l; rewrite Hc1;
    (repeat split; try reflexivity);
    destruct (COMPILE_STATUS h), (COMPILE_STATUS (S h)); cbn;
    rewrite <- ?app_assoc; reflexivity.
Qed.

Lemma constructor_this (vs fs : string) (e : Env) :
  let e1 := constructor vs fs e in
  ID (this e1) = S (S (next_handle e)) /\
  attributes (this e1) = [] /\
  uniforms (this e1)
  = initUniforms_loop (S (S (next_handle e))) (ACTIVE_UNIFORMS (S (S (next_handle e)))) [].
Proof.
  destruct (constructor_spec vs fs e) as (Ht & _). cbv zeta. rewrite Ht. repeat split.
Qed.

(** X15. [setUniform] reaches the program only for its active
    uniforms.  On a shader just constructed (also when compiling or
    linking failed), [setUniform(name, value)] hands the value to the
    [Uniform] object of that name when [name] is an active uniform of
    the program, and otherwise does nothing at all: no call, no error,
    no change of state. *)
Theorem setUniform_known_and_unknown
    (vs fs : string) (key : string) (value : JSValue) (e : Env) :
  let e1 := constructor vs fs e in
  let e2 := setUniform key value e1 in
  (key ∈ map info_name (ACTIVE_UNIFORMS (ID (this e1))) ->
     exists info,
       info ∈ ACTIVE_UNIFORMS (ID (this e1)) /\ info_name info = key /\
       calls e2 = (calls e1
                   ++ [UniformSet (Build_Uniform (ID (this e1)) info) (Plain value)])%list /\
       this e2 = this e1) /\
  (key ∉ map info_name (ACTIVE_UNIFORMS (ID (this e1))) -> e2 = e1).
Proof.
  intros e1 e2.
  destruct (constructor_this vs fs e) as (HID & _ & Hu). fold e1 in HID, Hu.
  subst e2. unfold setUniform, send. rewrite Hu, HID. clearbody e1.
  destruct (initUniforms_loop_get (S (S (next_handle e)))
              (ACTIVE_UNIFORMS (S (S (next_handle e)))) [] key) as [Hn Hy].
  split; intros H.
  - destruct (Hy H) as (info & Hin & Hname & ->).
    exists info. destruct e1. repeat split; assumption.
  - by rewrite (Hn H).
Qed.

Lemma send_this (key : string) (v : Value) (e : Env) :
  this (send key v e) = this e /\
  modelview_matrix (send key v e) = modelview_matrix e /\
  normalview_matrix (send key v e) = normalview_matrix e /\
  mvp_matrix (send key v e) = mvp_matrix e /\
  calls (send key v e)
  = (calls e ++ match Map_get key (uniforms (this e)) with
                | Some u => [UniformSet u v]
                | None => []
                end)%list.
Proof.
  unfold send. destruct (Map_get key (uniforms (this e))); destruct e; cbn;
    rewrite ?app_nil_r; repeat split.
Qed.

(** X16. [setUniforms] drops falsy values.  It hands to the [Uniform]
    objects, in the order of the map, exactly the entries whose value
    is truthy and whose name is an active uniform; an entry with value
    [0], [false], the empty string, [null] or [undefined] is skipped,
    although [setUniform] itself passes such a value on. *)
Theorem setUniforms_skips_falsy_values (entries : list (string * JSValue)) (e : Env) :
  let e' := setUniforms entries e in
  this e' = this e /\
  calls e'
  = (calls e
     ++ omap (fun entry =>
                if truthy (snd entry)
                then (fun u => UniformSet u (Plain (snd entry)))
                       <$> Map_get (fst entry) (uniforms (this e))
                else None) entries)%list /\
  (forall u v, UniformSet u (Plain v) ∈ calls_since e e' -> truthy v = true) /\
  (forall key u v,
     Map_get key (uniforms (this e)) = Some u ->
     calls (setUniform key v e) = (calls e ++ [UniformSet u (Plain v)])%list).
Proof.
  intros e'.
  assert (H : this e' = this e /\
              calls e'
              = (calls e
                 ++ omap (fun entry =>
                            if truthy (snd entry)
                            then (fun u => UniformSet u (Plain (snd entry)))
                                   <$> Map_get (fst entry) (uniforms (this e))
                            else None) entries)%list).
  { subst e'. remember (this e) as t eqn:Et. revert e Et.
    induction entries as [|[key v] entries IH]; intros e Et.
    - cbn. by rewrite app_nil_r.
    - cbn [setUniforms omap list_omap fst snd].
      destruct (truthy v); [|by apply IH].
      unfold setUniform.
      destruct (send_this key (Plain v) e) as (Hts & _ & _ & _ & Hcs).
      destruct (IH (send key (Plain v) e)) as [Ht Hc]; [congruence|].
      rewrite Ht, Hc, Hcs, <- Et. split; [reflexivity|].
      destruct (Map_get key (uniforms t)); cbn [fmap option_fmap option_map];
        rewrite <- ?app_assoc, ?app_nil_r; reflexivity. }
  destruct H as [Ht Hc]. split; [exact Ht|]. split; [exact Hc|]. split.
  - intros u v. unfold calls_since. rewrite Hc, drop_app_length.
    intros (entry & Hentry & Hsome)%list_elem_of_omap.
    destruct (truthy (snd entry)) eqn:E; [|discriminate].
    destruct (Map_get _ _); [|discriminate]. cbn in Hsome.
    injection Hsome as _ <-. exact E.
  - intros key u v Hget. unfold setUniform.
    destruct (send_this key (Plain v) e) as (_ & _ & _ & _ & ->). by rewrite Hget.
Qed.

End ShaderProgramProperties.

Section ShaderProgramBlocks.
Import ShaderProgram.
Context {GM : GlMatrix} {GLD : Driver}.

Lemma setModelViewBlock_spec (model_matrix view_matrix proj_matrix : mat4) (e : Env) :
  let e' := setModelViewBlock model_matrix view_matrix proj_matrix e in
  let modelview := mat4_mul view_matrix model_matrix in
  let normalview :=
    match mat3_normalFromMat4 modelview with
    | Some n => n
    | None => normalview_matrix e
    end in
  let sent key value :=
    match Map_get key (uniforms (this e)) with
    | Some u => [UniformSet u value]
    | None => []
    end in
  this e' = this e /\
  modelview_matrix e' = modelview /\
  normalview_matrix e' = normalview /\
  mvp_matrix e' = mat4_mul proj_matrix modelview /\
  calls e'
  = (calls e
     ++ sent "u_view_matrix" (Matrix4 view_matrix)
     ++ sent "u_modelview_matrix" (Matrix4 modelview)
     ++ sent "u_normalview_matrix" (Matrix3 normalview)
     ++ sent "u_mvp_matrix" (Matrix4 (mat4_mul proj_matrix modelview))
     ++ [ConsoleDir (mat4_mul proj_matrix modelview)])%list.
Proof.
  intros e' modelview normalview sent. subst e'. unfold setModelViewBlock. cbv zeta.
  fold modelview. fold normalview.
  set (e0 := {| this := this e; modelview_matrix := modelview;
                normalview_matrix := normalview;
                mvp_matrix := mat4_mul proj_matrix modelview;
                calls := calls e; next_handle := next_handle e |}).
  set (e1 := send "u_view_matrix" (Matrix4 view_matrix) e0).
  set (e2 := send "u_modelview_matrix" (Matrix4 (modelview_matrix e1)) e1).
  set (e3 := send "u_normalview_matrix" (Matrix3 (normalview_matrix e2)) e2).
  set (e4 := send "u_mvp_matrix" (Matrix4 (mvp_matrix e3)) e3).
  destruct (send_this "u_view_matrix" (Matrix4 view_matrix) e0)
    as (T1 & M1 & N1 & P1 & C1). fold e1 in T1, M1, N1, P1, C1.
  destruct (send_this "u_modelview_matrix" (Matrix4 (modelview_matrix e1)) e1)
    as (T2 & M2 & N2 & P2 & C2). fold e2 in T2, M2, N2, P2, C2.
  destruct (send_this "u_normalview_matrix" (Matrix3 (normalview_matrix e2)) e2)
    as (T3 & M3 & N3 & P3 & C3). fold e3 in T3, M3, N3, P3, C3.
  destruct (send_this "u_mvp_matrix" (Matrix4 (mvp_matrix e3)) e3)
    as (T4 & M4 & N4 & P4 & C4). fold e4 in T4, M4, N4, P4, C4.
  clearbody e1 e2 e3 e4.
  unfold log. cbn [this modelview_matrix normalview_matrix mvp_matrix calls].
  rewrite C4, C3, C2, C1, T3, T2, T1.
  rewrite T4, T3, T2, T1, M4, M3, M2, M1, N4, N3, N2, N1, P4, P3, P2, P1.
  subst e0 sent. cbn [this modelview_matrix normalview_matrix mvp_matrix calls].
  rewrite <- !app_assoc. repeat split.
Qed.

Lemma setModelViewBlock_all_this (ms : list (mat4 * mat4 * mat4)) (e : Env) :
  this (setModelViewBlock_all ms e) = this e.
Proof.
  revert e; induction ms as [|[[m v] p] ms IH]; intros e; [reflexivity|].
  cbn [setModelViewBlock_all]. rewrite IH.
  apply (setModelViewBlock_spec m v p e).
Qed.

Lemma setModelViewBlock_all_normal
    (pre post : list (mat4 * mat4 * mat4)) (m v p : mat4) (n : mat3) (e : Env) :
  mat3_normalFromMat4 (mat4_mul v m) = Some n ->
  Forall (fun c => mat3_normalFromMat4 (mat4_mul (snd (fst c)) (fst (fst c))) = None)
         post ->
  normalview_matrix (setModelViewBlock_all (pre ++ (m, v, p) :: post) e) = n.
Proof.
  intros Hn Hpost. revert e. induction pre as [|[[m0 v0] p0] pre IH]; intros e.
  - cbn [app setModelViewBlock_all].
    assert (H0 : normalview_matrix (setModelViewBlock m v p e) = n).
    { destruct (setModelViewBlock_spec m v p e) as (_ & _ & -> & _). by rewrite Hn. }
    revert H0. generalize (setModelViewBlock m v p e). clear e.
    induction Hpost as [|[[m0 v0] p0] post Hc _ IH]; intros e He; [exact He|].
    cbn [setModelViewBlock_all]. apply IH.
    destruct (setModelViewBlock_spec m0 v0 p0 e) as (_ & _ & -> & _).
    cbn [fst snd] in Hc. by rewrite Hc.
  - cbn [app setModelViewBlock_all]. apply IH.
Qed.

(** X17. A singular model-view matrix does not stop
    [setModelViewBlock]; it sends a stale normal matrix.  After a call
    whose model-view matrix had the normal matrix [n], followed by any
    number of calls with singular model-view matrices, the scratch
    normal matrix is still [n], and one more call with a singular
    model-view matrix hands [n] to the uniform [u_normalview_matrix]. *)
Theorem setModelViewBlock_sends_stale_normal_matrix
    (pre post : list (mat4 * mat4 * mat4)) (m v p : mat4) (n : mat3)
    (u : Uniform) (m' v' p' : mat4) (e : Env) :
  mat3_normalFromMat4 (mat4_mul v m) = Some n ->
  Forall (fun c => mat3_normalFromMat4 (mat4_mul (snd (fst c)) (fst (fst c))) = None)
         post ->
  mat3_normalFromMat4 (mat4_mul v' m') = None ->
  Map_get "u_normalview_matrix" (uniforms (this e)) = Some u ->
  let e1 := setModelViewBlock_all (pre ++ (m, v, p) :: post) e in
  let e2 := setModelViewBlock m' v' p' e1 in
  normalview_matrix e1 = n /\
  normalview_matrix e2 = n /\
  UniformSet u (Matrix3 n) ∈ calls_since e1 e2.
Proof.
  intros Hn Hpost Hn' Hu e1 e2.
  assert (H1 : normalview_matrix e1 = n)
    by (by apply setModelViewBlock_all_normal).
  assert (Hthis : this e1 = this e) by apply setModelViewBlock_all_this.
  destruct (setModelViewBlock_spec m' v' p' e1) as (_ & _ & H2 & _ & Hcalls).
  fold e2 in H2, Hcalls. rewrite Hn', H1 in H2.
  split; [exact H1|]. split; [exact H2|].
  unfold calls_since. rewrite Hcalls, drop_app_length, Hthis, Hu, Hn', H1.
  apply elem_of_app; right. apply elem_of_app; right.
  apply elem_of_app; left. apply list_elem_of_here.
Qed.

Lemma setAttributes_spec (attr : list string) (e : Env) :
  let e' := setAttributes attr e in
  uniforms (this e') = uniforms (this e) /\
  ID (this e') = ID (this e) /\
  calls e' = calls e /\
  forall a,
    Map_get a (attributes (this e'))
    = if decide (a ∈ attr) then Some (getAttribLocation (ID (this e)) a)
      else Map_get a (attributes (this e)).
Proof.
  revert e; induction attr as [|a0 attr IH]; intros e.
  - repeat split; intros a; by rewrite decide_False by apply not_elem_of_nil.
  - cbn [setAttributes]. destruct (IH (set_this
        {| uniforms := uniforms (this e);
           attributes := Map_set a0 (getAttribLocation (ID (this e)) a0)
                                 (attributes (this e));
           ID := ID (this e) |} e)) as (Hu & HI & Hc & Ha).
    cbv zeta. rewrite Hu, HI, Hc. destruct e as [[us ats i] mv nv mvp l h].
    repeat split. intros a. rewrite Ha. cbn [this ID attributes set_this].
    destruct (decide (a ∈ attr)) as [Hin|Hnin].
    + rewrite decide_True by (by apply list_elem_of_further). reflexivity.
    + destruct (decide (a = a0)) as [->|Hne].
      * rewrite decide_True by apply list_elem_of_here. apply Map_get_set_eq.
      * rewrite decide_False by (intros [?|?]%elem_of_cons; contradiction).
        apply Map_get_set_ne. congruence.
Qed.

(** X18. [setAttributes] records the location of every name it is
    given and nothing else: afterwards [attributes] maps each listed
    name to what [getAttribLocation] answers for it (also the [-1] of a
    name the program does not have), keeps the entry of every other
    name, and neither the uniforms nor the program nor the log changed. *)
Theorem setAttributes_records_locations (attr : list string) (a : string) (e : Env) :
  let e' := setAttributes attr e in
  (a ∈ attr ->
     Map_get a (attributes (this e')) = Some (getAttribLocation (ID (this e)) a)) /\
  (a ∉ attr ->
     Map_get a (attributes (this e')) = Map_get a (attributes (this e))) /\
  uniforms (this e') = uniforms (this e) /\
  ID (this e') = ID (this e) /\
  calls e' = calls e.
Proof.
  destruct (setAttributes_spec attr e) as (Hu & HI & Hc & Ha). cbv zeta.
  rewrite Ha. repeat split; try assumption.
  - intros H. by rewrite decide_True.
  - intros H. by rewrite decide_False.
Qed.

(** X19. The constructor reports failures and goes on.  Whatever the
    compile and link status, it issues the same ten calls (create,
    source, compile for both stages; create program, attach both, link)
    on the next three handles and ends with the program as [ID] and an
    empty attribute map; each failed status only adds an [alert]: the
    info log after the failed compile, a fixed message after a failed
    link. *)
Theorem constructor_reports_failures_and_goes_on (vs fs : string) (e : Env) :
  let e1 := constructor vs fs e in
  let h := next_handle e in
  let new := calls_since e e1 in
  filter (fun c => negb (is_alert c)) new
  = [CreateShader VERTEX_SHADER h; ShaderSource h vs; CompileShader h;
     CreateShader FRAGMENT_SHADER (S h); ShaderSource (S h) fs; CompileShader (S h);
     CreateProgram (S (S h)); AttachShader (S (S h)) h; AttachShader (S (S h)) (S h);
     LinkProgram (S (S h))] /\
  filter is_alert new
  = ((if COMPILE_STATUS h then [] else [Alert (getShaderInfoLog h)])
     ++ (if COMPILE_STATUS (S h) then [] else [Alert (getShaderInfoLog (S h))])
     ++ (if LINK_STATUS (S (S h)) then []
         else [Alert (Some "Could not initialize shaders")]))%list /\
  ID (this e1) = S (S h) /\
  attributes (this e1) = [] /\
  next_handle e1 = S (S (S h)).
Proof.
  intros e1 h new.
  destruct (constructor_spec vs fs e) as (Ht & _ & _ & _ & Hh & Hc).
  fold e1 in Ht, Hh, Hc. fold h in Ht, Hh, Hc.
  subst new. unfold calls_since. rewrite Hc, drop_app_length, Ht, Hh.
  destruct (COMPILE_STATUS h), (COMPILE_STATUS (S h)), (LINK_STATUS (S (S h)));
    repeat split.
Qed.

End ShaderProgramBlocks.

Section LegacyProperties.
Context {GM : GlMatrix}.

(** X20. The earlier revision tracks its arguments the same way, keeps
    no statistics, and is as little atomic: after a call, also one that
    threw, the shader and the vertex buffer passed are the tracked
    ones, the index buffer is when one was passed, and the statistics,
    the material and everything outside the cache and the log are
    untouched. *)
Theorem legacy_draw_tracks_arguments
    (draw_mode count offset : Z) (index_buffer : option IndexBuffer)
    (vertex_buffer : VertexBuffer) (sh : ref) (w : World) :
  let w' := snd (Legacy.draw draw_mode count offset index_buffer vertex_buffer sh w) in
  current_shader (this w') = Some sh /\
  current_vertex_buffer (this w') = Some (vertex_buffer_ref vertex_buffer) /\
  current_index_buffer (this w')
    = match index_buffer with
      | Some ib => Some (index_buffer_ref ib)
      | None => current_index_buffer (this w)
      end /\
  current_material (this w') = current_material (this w) /\
  stats (this w') = stats (this w) /\
  viewport (this w') = viewport (this w) /\
  statics w' = statics w /\
  scratch w' = scratch w.
Proof.
  destruct w as [[cvb cib cm cs pf pm st vp] sta scr lg nr].
  destruct index_buffer as [[ibr bpe]|], vertex_buffer as [vbr].
  all: intros w'; subst w'; unfold Legacy.draw; draw_cases.
  all: repeat split; congruence.
Qed.

End LegacyProperties.

(** ** The further statements at concrete inputs *)
Section FurtherInstances.
Import Exact Scene.
#[local] Existing Instance gl_matrix.

Lemma stats_count_the_calls_witness :
  let cs := [Call_draw TRIANGLES 36 0 (Some ib16) vb (Some pbr);
             Call_draw TRIANGLES 36 0 (Some ib8) vb (Some pbr);
             Call_setViewport 0 0 800 600;
             Call_draw TRIANGLES 3 0 None vb None] in
  forallb (fun c => negb (is_reset c)) cs = true /\
  stats (this (run_all cs (snd (resetStats fresh))))
  = {| shader_bind_count := 1; material_bind_count := 1;
       vertex_buffer_bind_count := 1; index_buffer_bind_count := 2;
       index_draw_count := 36; vertex_draw_count := 3; draw_calls := 2 |}.
Proof.
  intros cs. split; [reflexivity|].
  destruct (stats_count_the_calls cs fresh eq_refl) as [_ H].
  cbv zeta in H. rewrite H. reflexivity.
Defined.

Lemma determinant_failure_is_permanent_witness :
  let failed := setPerModelUniforms zero4 create4 create4 fresh in
  let w1 := run_all [Call_setPerFrameUniforms create4 create4] (snd failed) in
  fst failed = Throw (Error "Determinant could not be calculated for normalview_matrix") /\
  fst (setPerModelUniforms create4 create4 create4 w1)
  = Throw (TypeError "Cannot set properties of null") /\
  fst (setPerModelUniforms create4 create4 create4 fresh) = Ret tt.
Proof.
  intros failed w1.
  assert (Hf : fst failed
               = Throw (Error "Determinant could not be calculated for normalview_matrix"))
    by reflexivity.
  split; [exact Hf|]. split; [|reflexivity].
  destruct (determinant_failure_is_permanent (GM := gl_matrix) zero4 create4 create4
              [Call_setPerFrameUniforms (GM := gl_matrix) create4 create4]
              create4 create4 create4 fresh Hf)
    as (_ & _ & H & _).
  exact H.
Defined.

Lemma setPerModelUniforms_keeps_working_witness :
  let cs := [Call_setPerModelUniforms move create4 create4;
             Call_draw TRIANGLES 36 0 (Some ib16) vb (Some pbr)] in
  normalview_matrix (scratch fresh) <> None /\
  forallb has_normal_matrix cs = true /\
  mat3_normalFromMat4 (mat4_mul create4 move_back) <> None /\
  fst (setPerModelUniforms move_back create4 create4 (run_all cs fresh)) = Ret tt.
Proof.
  intros cs.
  assert (H1 : normalview_matrix (scratch fresh) <> None)
    by (intros H; vm_compute in H; discriminate H).
  assert (H2 : forallb has_normal_matrix cs = true) by reflexivity.
  assert (H3 : mat3_normalFromMat4 (mat4_mul create4 move_back) <> None)
    by (intros H; vm_compute in H; discriminate H).
  split; [exact H1|]. split; [exact H2|]. split; [exact H3|].
  apply (setPerModelUniforms_keeps_working (GM := gl_matrix) cs move_back create4 create4
           fresh H1 H2 H3).
Defined.

Lemma resetViewport_before_setViewport_witness :
  let cs := [Call_draw TRIANGLES 36 0 (Some ib16) vb (Some pbr); Call_resetViewport] in
  let w1 := run_all cs (snd (constructor blank_world)) in
  forallb (fun c => negb (is_setViewport c)) cs = true /\
  calls_since w1 (snd (resetViewport w1)) = [Viewport 0 0 0 0].
Proof.
  intros cs w1. split; [reflexivity|].
  apply (resetViewport_before_setViewport (GM := gl_matrix) cs blank_world eq_refl).
Defined.

Lemma create_shaders_last_entry_wins_witness :
  let table := [ShaderSource.Grid; ShaderSource.PBR; Bench.grid_again; ShaderSource.BRDF] in
  (name Bench.grid_again ∉ map name [ShaderSource.BRDF]) /\
  exists sh,
    Map_get "GridShader" (_Shaders (statics (snd (create_shaders table blank_world))))
      = Some sh /\
    shader_class sh = BasicShader /\
    vertexSourceCode sh = ShaderSource.standardVert.
Proof.
  intros table.
  assert (H : name Bench.grid_again ∉ map name [ShaderSource.BRDF]).
  { intros [H|H]%elem_of_cons; [discriminate H | by apply elem_of_nil in H]. }
  split; [exact H|].
  destruct (create_shaders_last_entry_wins (GM := gl_matrix)
              [ShaderSource.Grid; ShaderSource.PBR] [ShaderSource.BRDF]
              Bench.grid_again blank_world H) as (sh & Hget & Hv & _ & Hc).
  exists sh. split; [exact Hget|]. split; [exact Hc | exact Hv].
Defined.

Lemma GetShader_defined_on_table_names_witness :
  "GridShader" ∈ map name ShaderSources /\
  ("WaterShader" ∉ map name ShaderSources) /\
  (exists sh, fst (GetShader "GridShader" fresh) = Ret (Some sh)) /\
  fst (GetShader "WaterShader" fresh) = Ret None.
Proof.
  assert (H1 : "GridShader" ∈ map name ShaderSources).
  { repeat first [by apply list_elem_of_here | apply list_elem_of_further]. }
  assert (H2 : "WaterShader" ∉ map name ShaderSources).
  { unfold ShaderSources. cbn [map].
    repeat (apply not_elem_of_cons; split; [discriminate|]). apply not_elem_of_nil. }
  split; [exact H1|]. split; [exact H2|].
  split.
  - apply (GetShader_defined_on_table_names (GM := gl_matrix) "GridShader" blank_world), H1.
  - apply (GetShader_defined_on_table_names (GM := gl_matrix) "WaterShader" blank_world), H2.
Defined.

End FurtherInstances.

Section ShaderInstances.
Import ShaderProgram.
#[local] Existing Instance Exact.gl_matrix.
#[local] Existing Instance Bench.driver.

Lemma setUniform_known_and_unknown_witness :
  let e1 := Bench.shader_env in
  "u_mvp_matrix" ∈ map info_name (ACTIVE_UNIFORMS (ID (this e1))) /\
  ("u_light_count" ∉ map info_name (ACTIVE_UNIFORMS (ID (this e1)))) /\
  (exists info,
     calls (setUniform "u_mvp_matrix" (JNumber 0) e1)
     = (calls e1 ++ [UniformSet (Build_Uniform (ID (this e1)) info)
                                (Plain (JNumber 0))])%list) /\
  setUniform "u_light_count" (JNumber 1) e1 = e1.
Proof.
  intros e1.
  assert (H1 : "u_mvp_matrix" ∈ map info_name (ACTIVE_UNIFORMS (ID (this e1)))).
  { repeat first [by apply list_elem_of_here | apply list_elem_of_further]. }
  assert (H2 : "u_light_count" ∉ map info_name (ACTIVE_UNIFORMS (ID (this e1)))).
  { cbn [ACTIVE_UNIFORMS Bench.driver map].
    repeat (apply not_elem_of_cons; split; [discriminate|]). apply not_elem_of_nil. }
  split; [exact H1|]. split; [exact H2|].
  split.
  - destruct (setUniform_known_and_unknown (GM := Exact.gl_matrix) (GLD := Bench.driver)
                "vertex source" "fragment source" "u_mvp_matrix" (JNumber 0) start)
      as [Hk _].
    destruct (Hk H1) as (info & _ & _ & Hc & _). exists info. exact Hc.
  - apply (setUniform_known_and_unknown (GM := Exact.gl_matrix) (GLD := Bench.driver)
             "vertex source" "fragment source" "u_light_count" (JNumber 1) start), H2.
Defined.

Lemma setModelViewBlock_sends_stale_normal_matrix_witness :
  let u := Build_Uniform 2%nat (Bench.uniform_info "u_normalview_matrix") in
  let e1 := setModelViewBlock_all
              [(Scene.move, Exact.create4, Exact.create4);
               (Exact.zero4, Exact.create4, Exact.create4)] Bench.shader_env in
  let e2 := setModelViewBlock Exact.zero4 Exact.create4 Exact.create4 e1 in
  mat3_normalFromMat4 (mat4_mul Exact.create4 Scene.move) = Some Exact.create3 /\
  mat3_normalFromMat4 (mat4_mul Exact.create4 Exact.zero4) = None /\
  Map_get "u_normalview_matrix" (uniforms (this Bench.shader_env)) = Some u /\
  normalview_matrix e2 = Exact.create3 /\
  UniformSet u (Matrix3 Exact.create3) ∈ calls_since e1 e2.
Proof.
  intros u e1 e2.
  assert (H1 : mat3_normalFromMat4 (mat4_mul Exact.create4 Scene.move)
               = Some Exact.create3) by reflexivity.
  assert (H2 : mat3_normalFromMat4 (mat4_mul Exact.create4 Exact.zero4) = None)
    by reflexivity.
  assert (H3 : Map_get "u_normalview_matrix" (uniforms (this Bench.shader_env)) = Some u)
    by reflexivity.
  split; [exact H1|]. split; [exact H2|]. split; [exact H3|].
  destruct (setModelViewBlock_sends_stale_normal_matrix (GM := Exact.gl_matrix)
              [] [(Exact.zero4, Exact.create4, Exact.create4)]
              Scene.move Exact.create4 Exact.create4 Exact.create3 u
              Exact.zero4 Exact.create4 Exact.create4 Bench.shader_env H1)
    as (_ & Hn & Hin); [| exact H2 | exact H3 | ].
  - repeat constructor.
  - split; [exact Hn | exact Hin].
Defined.

Lemma setAttributes_records_locations_witness :
  let e' := setAttributes ["a_vertex"; "a_normal"] Bench.shader_env in
  "a_normal" ∈ ["a_vertex"; "a_normal"] /\
  ("a_uv" ∉ ["a_vertex"; "a_normal"]) /\
  Map_get "a_normal" (attributes (this e')) = Some (-1) /\
  Map_get "a_uv" (attributes (this e')) = None.
Proof.
  intros e'.
  assert (H1 : "a_normal" ∈ ["a_vertex"; "a_normal"])
    by apply list_elem_of_further, list_elem_of_here.
  assert (H2 : "a_uv" ∉ ["a_vertex"; "a_normal"]).
  { repeat (apply not_elem_of_cons; split; [discriminate|]). apply not_elem_of_nil. }
  split; [exact H1|]. split; [exact H2|].
  split.
  - apply (setAttributes_records_locations (GM := Exact.gl_matrix) (GLD := Bench.driver)
             ["a_vertex"; "a_normal"] "a_normal" Bench.shader_env), H1.
  - destruct (setAttributes_records_locations (GM := Exact.gl_matrix)
                (GLD := Bench.driver) ["a_vertex"; "a_normal"] "a_uv" Bench.shader_env)
      as (_ & H & _).
    etransitivity; [exact (H H2) | reflexivity].
Defined.

End ShaderInstances.
